(** * BitSlow: coin identity, ownership transfer and history projection

    A shallow embedding of the server routes [/api/coins/buy],
    [/api/coins/generate] and [/api/coins/:id/history] (the Bun server
    module) and of the history modal's rendering of a record, followed by
    the properties of the marketplace core proved about them.

    Conventions of the embedding:
    - SQLite integers are [Z]; JavaScript numbers that carry money are [Q];
      a nullable column or field is an [option].
    - The results of [Math.random()] and their product with 10 are IEEE 754
      binary64 numbers, [spec_float] with precision 53 and maximal
      exponent 1024, multiplied with rounding to nearest even.
    - A table is the list of its rows in rowid order; the [clients] table is
      a finite map from the client id to the client's name.
    - The two module-level [Map]s of the server are [gmap string _].
    - Everything the handlers obtain from outside ([Math.random],
      [new Date()], the token verifier, a failing storage call) is read
      from an environment record. *)

From Stdlib Require Import ZArith QArith String List Lia Sorted SpecFloat.
From stdpp Require Import gmap strings list pretty.

Local Open Scope Z_scope.

(* ================================================================== *)
(** * Data model *)
(* ================================================================== *)

(** Row of [coins(coin_id, bit1, bit2, bit3, value, client_id)]. *)
Record Coin := mkCoin {
  coin_id : Z;
  bit1 : Z;
  bit2 : Z;
  bit3 : Z;
  value : Q;
  client_id : option Z
}.

(** Row of [transactions(id, coin_id, buyer_id, seller_id,
    transaction_date, amount)]. *)
Record Transaction := mkTransaction {
  id : Z;
  tx_coin_id : Z;
  buyer_id : Z;
  seller_id : option Z;
  transaction_date : string;
  amount : Q
}.

(** Modelled from the spec: the table declarations (the seed module) are
    not among the sources. The three tables the routes touch have the
    persisted layout the spec gives, [coins] and [transactions] as row
    lists in insertion order, [clients] keyed by the client's integer
    identity. *)
Record Tables := mkTables {
  coins : list Coin;
  transactions : list Transaction;
  clients : gmap Z string
}.

(** [interface TransactionCache] / [interface CoinCache]: a cached page
    and the time it was stored. Both interfaces have the same shape up to
    the name of the item array. *)
Record PageData := mkPageData {
  items : list string;
  total : Z;
  page : Z;
  pageSize : Z
}.

Record CacheEntry := mkCacheEntry {
  data : PageData;
  timestamp : Z
}.

(** The server process: the database connection (current contents, and
    the contents to restore while a transaction is open) and the two
    module-level cache maps. *)
Record Machine := mkMachine {
  db : Tables;
  open_tx : option Tables;
  transactionCache : gmap string CacheEntry;
  coinCache : gmap string CacheEntry
}.

(** [interface TokenData]. *)
Record TokenData := mkTokenData {
  userId : Z;
  email : string;
  expiresAt : Z
}.

(** The storage calls of the two mutating routes, named so that a storage
    failure can be injected at any one of them. *)
Inductive Stmt :=
| SelectCoin | UpdateCoinOwner | InsertTransaction | Commit
| SelectBits | InsertCoin.

(** What a handler reads from outside the process. *)
Record Env := mkEnv {
  random : nat -> spec_float;            (* successive Math.random() results *)
  now : string;                          (* new Date().toISOString() *)
  verifyToken : string -> option TokenData;  (* TokenManager.verifyToken *)
  storage_fault : Stmt -> bool           (* this storage call throws *)
}.

(** A JSON value as far as the handlers inspect it. *)
Inductive JsValue :=
| JsUndefined
| JsNull
| JsBool (b : bool)
| JsNumber (q : Q)
| JsString (s : string).

(** The [Authorization] header after the [startsWith("Bearer ")] test. *)
Inductive Credentials :=
| NoBearer
| Bearer (token : string).

(** A request: credentials and the parsed JSON body ([None] when
    [req.json()] rejects). *)
Record Request (Body : Type) := mkRequest {
  authorization : Credentials;
  json : option Body
}.
Arguments mkRequest {Body} _ _.
Arguments authorization {Body} _.
Arguments json {Body} _.

(** Body of [POST /api/coins/buy]: [data.coin_id], absent or an integer. *)
Record BuyData := mkBuyData { data_coin_id : option Z }.

(** Body of [POST /api/coins/generate]: [data.value]. *)
Record GenerateData := mkGenerateData { data_value : JsValue }.

(** The JSON responses of the routes. *)
Record Response := mkResponse {
  status : Z;
  success : bool;
  message : string;
  resp_coin_id : option Z;
  resp_bits : option (Z * Z * Z);
  resp_value : option Q
}.

Definition reply (st : Z) (ok : bool) (msg : string) : Response :=
  mkResponse st ok msg None None None.

(* ================================================================== *)
(** * Exceptions and state *)
(* ================================================================== *)

(** A computation either yields a value or throws; the machine state it
    leaves behind is kept in both cases (JavaScript undoes nothing on a
    throw). *)
Inductive result (A : Type) :=
| Val (a : A)
| Threw (error : string).
Arguments Val {A} _.
Arguments Threw {A} _.

Definition M (A : Type) : Type := Machine -> result A * Machine.

Definition ret {A} (a : A) : M A := fun m => (Val a, m).

Definition throw {A} (error : string) : M A := fun m => (Threw error, m).

Definition bind {A B} (c : M A) (k : A -> M B) : M B :=
  fun m =>
    match c m with
    | (Val a, m') => k a m'
    | (Threw e, m') => (Threw e, m')
    end.

(** [try { c } catch (error) { h error }] *)
Definition try_catch {A} (c : M A) (h : string -> M A) : M A :=
  fun m =>
    match c m with
    | (Val a, m') => (Val a, m')
    | (Threw e, m') => h e m'
    end.

Notation "'let*' x ':=' c 'in' k" := (bind c (fun x => k))
  (at level 10, x name, c at level 100, k at level 200).
Notation "c ';;' k" := (bind c (fun _ => k))
  (at level 100, k at level 200, right associativity).

(* ================================================================== *)
(** * The database connection *)
(* ================================================================== *)

Definition set_db (t : Tables) (m : Machine) : Machine :=
  mkMachine t (open_tx m) (transactionCache m) (coinCache m).

(** [db.exec("BEGIN TRANSACTION")] *)
Definition exec_begin : M unit :=
  fun m =>
    match open_tx m with
    | Some _ =>
        (Threw "cannot start a transaction within a transaction", m)
    | None =>
        (Val tt, mkMachine (db m) (Some (db m)) (transactionCache m) (coinCache m))
    end.

(** [db.exec("ROLLBACK")] *)
Definition exec_rollback : M unit :=
  fun m =>
    match open_tx m with
    | None => (Threw "cannot rollback - no transaction is active", m)
    | Some saved =>
        (Val tt, mkMachine saved None (transactionCache m) (coinCache m))
    end.

(** [db.exec("COMMIT")] *)
Definition exec_commit (env : Env) : M unit :=
  fun m =>
    if storage_fault env Commit then (Threw "storage error", m)
    else
      match open_tx m with
      | None => (Threw "cannot commit - no transaction is active", m)
      | Some _ =>
          (Val tt, mkMachine (db m) None (transactionCache m) (coinCache m))
      end.

(** Run a storage call unless a failure is injected at it. *)
Definition storage {A} (env : Env) (s : Stmt) (c : M A) : M A :=
  if storage_fault env s then throw "storage error" else c.

(** [SELECT coin_id, client_id, value FROM coins WHERE coin_id = ?] with
    [.get(coinId)]: the first matching row, if any. *)
Definition select_coin (env : Env) (coinId : Z) : M (option Coin) :=
  storage env SelectCoin
    (fun m => (Val (find (fun c => coin_id c =? coinId) (coins (db m))), m)).

Definition set_owner (buyerId : Z) (c : Coin) : Coin :=
  mkCoin (coin_id c) (bit1 c) (bit2 c) (bit3 c) (value c) (Some buyerId).

(** [UPDATE coins SET client_id = ? WHERE coin_id = ?] *)
Definition update_coin_owner (env : Env) (buyerId coinId : Z) : M unit :=
  storage env UpdateCoinOwner
    (fun m =>
       let t := db m in
       (Val tt,
        set_db (mkTables
                  (map (fun c => if coin_id c =? coinId
                                 then set_owner buyerId c else c) (coins t))
                  (transactions t) (clients t)) m)).

(** Modelled from the spec: the table declarations (the seed module) are
    not part of the sources; a row's integer id is "assigned on creation",
    taken here as SQLite assigns a rowid: one more than the largest id in
    the table. *)
Definition next_rowid (ids : list Z) : Z :=
  1 + fold_right Z.max 0 ids.

(** [INSERT INTO transactions (buyer_id, seller_id, coin_id,
    transaction_date, amount) VALUES (?, NULL, ?, ?, ?)] *)
Definition insert_transaction (env : Env) (buyerId coinId : Z)
    (date : string) (amt : Q) : M unit :=
  storage env InsertTransaction
    (fun m =>
       let t := db m in
       let row := mkTransaction (next_rowid (map id (transactions t)))
                    coinId buyerId None date amt in
       (Val tt,
        set_db (mkTables (coins t) (transactions t ++ [row]) (clients t)) m)).

(** [INSERT INTO coins (bit1, bit2, bit3, value, client_id) VALUES
    (?, ?, ?, ?, ?)], returning [Number(result.lastInsertRowid)]. *)
Definition insert_coin (env : Env) (b1 b2 b3 : Z) (v : Q) (owner : Z) : M Z :=
  storage env InsertCoin
    (fun m =>
       let t := db m in
       let coinId := next_rowid (map coin_id (coins t)) in
       let row := mkCoin coinId b1 b2 b3 v (Some owner) in
       (Val coinId,
        set_db (mkTables (coins t ++ [row]) (transactions t) (clients t)) m)).

(** [transactionCache.clear()] and [coinCache.clear()] *)
Definition transactionCache_clear : M unit :=
  fun m => (Val tt, mkMachine (db m) (open_tx m) ∅ (coinCache m)).

Definition coinCache_clear : M unit :=
  fun m => (Val tt, mkMachine (db m) (open_tx m) (transactionCache m) ∅).

(** [await req.json()] *)
Definition req_json {Body} (req : Request Body) : M Body :=
  match json req with
  | Some d => ret d
  | None => throw "Failed to parse JSON"
  end.

(* ================================================================== *)
(** * POST /api/coins/buy *)
(* ================================================================== *)

(** [!data.coin_id] *)
Definition coin_id_missing (d : BuyData) : bool :=
  match data_coin_id d with
  | None => true
  | Some n => n =? 0
  end.

Definition buy_POST (req : Request BuyData) (env : Env) : M Response :=
  match authorization req with
  | NoBearer => ret (reply 401 false "No token provided")
  | Bearer token =>
    match verifyToken env token with
    | None => ret (reply 401 false "Invalid or expired token")
    | Some userData =>
      try_catch
        (let* d := req_json req in
         if coin_id_missing d then ret (reply 400 false "Coin ID is required")
         else
           let coinId := default 0 (data_coin_id d) in
           let buyerId := userId userData in
           exec_begin ;;
           let* coin := select_coin env coinId in
           match coin with
           | None =>
               exec_rollback ;;
               ret (reply 404 false "Coin not found")
           | Some coin =>
               match client_id coin with
               | Some _ =>
                   exec_rollback ;;
                   ret (reply 400 false "Coin already has an owner")
               | None =>
                   update_coin_owner env buyerId coinId ;;
                   insert_transaction env buyerId coinId (now env) (value coin) ;;
                   exec_commit env ;;
                   transactionCache_clear ;;
                   coinCache_clear ;;
                   ret (mkResponse 200 true "Coin purchased successfully"
                          (Some coinId) None None)
               end
           end)
        (fun error =>
           exec_rollback ;;
           ret (reply 500 false "Server error during purchase"))
    end
  end.

(* ================================================================== *)
(** * POST /api/coins/generate *)
(* ================================================================== *)

(** JavaScript's [!v]. *)
Definition falsy (v : JsValue) : bool :=
  match v with
  | JsUndefined | JsNull => true
  | JsBool b => negb b
  | JsNumber q => Qeq_bool q 0
  | JsString s => String.eqb s EmptyString
  end.

(** [typeof v !== "number"] *)
Definition not_a_number (v : JsValue) : bool :=
  match v with
  | JsNumber _ => false
  | _ => true
  end.

(** [v <= 0] for a value already known to be a number. *)
Definition not_positive (v : JsValue) : bool :=
  match v with
  | JsNumber q => Qle_bool q 0
  | _ => false
  end.

(** [!data.value || typeof data.value !== "number" || data.value <= 0] *)
Definition value_invalid (d : GenerateData) : bool :=
  falsy (data_value d) || not_a_number (data_value d)
  || not_positive (data_value d).

Definition number_of (v : JsValue) : Q :=
  match v with
  | JsNumber q => q
  | _ => 0%Q
  end.

(** The double 10: mantissa 5 * 2^50, exponent -49. *)
Definition double_ten : spec_float :=
  S754_finite false 5629499534213120 (-49).

(** The double 1: mantissa 2^52, exponent -52. *)
Definition double_one : spec_float :=
  S754_finite false 4503599627370496 (-52).

(** [x * y] on doubles: the exact product rounded to nearest, ties to
    even. *)
Definition double_mul (x y : spec_float) : spec_float :=
  SFmul 53 1024 x y.

(** [Math.floor(x)] as an integer: a finite double is its signed mantissa
    times two to its exponent, and shifting by a negative exponent rounds
    towards minus infinity. ([Math.floor] of a NaN or an infinity is not
    an integer; the product of a [Math.random()] result with 10 is always
    finite.) *)
Definition Math_floor (x : spec_float) : Z :=
  match x with
  | S754_finite s m e => Z.shiftl (cond_Zopp s (Z.pos m)) e
  | _ => 0
  end.

(** [Math.floor(r * 10) + 1] for a result [r] of [Math.random()]: the
    product is the rounded double product; the floor of that product is a
    small integer, to which adding 1 is exact. *)
Definition random_bit (r : spec_float) : Z :=
  Math_floor (double_mul r double_ten) + 1.
Arguments random_bit : simpl never.

(** The template string [`${bit1}-${bit2}-${bit3}`]. *)
Definition combinationKey (b1 b2 b3 : Z) : string :=
  pretty b1 +:+ "-" +:+ pretty b2 +:+ "-" +:+ pretty b3.

Definition MAX_ATTEMPTS : Z := 10000.

(** How the [do ... while] loop of [generateUniqueBits] ends. [OutOfFuel]
    is an artefact of the bounded recursion and is shown never to occur. *)
Inductive Draw :=
| Found (b1 b2 b3 : Z)
| GaveUp (error : string)
| OutOfFuel.

(** The [do { ... } while (existingCombinations.has(combinationKey))] loop.
    [pos] counts the calls to [Math.random] made so far, [attempts] is the
    loop's counter on entry to the body. *)
Fixpoint draw_loop (fuel : nat) (existingCombinations : gset string)
    (rnd : nat -> spec_float) (pos : nat) (attempts : Z) : Draw :=
  match fuel with
  | O => OutOfFuel
  | S fuel' =>
      let b1 := random_bit (rnd pos) in
      let b2 := random_bit (rnd (S pos)) in
      let b3 := random_bit (rnd (S (S pos))) in
      let key := combinationKey b1 b2 b3 in
      let attempts := attempts + 1 in
      if MAX_ATTEMPTS <? attempts then
        GaveUp "Could not find unique bit combination after many attempts"
      else if bool_decide (key ∈ existingCombinations) then
        draw_loop fuel' existingCombinations rnd (S (S (S pos))) attempts
      else Found b1 b2 b3
  end.

(** The set built from [SELECT bit1, bit2, bit3 FROM coins]. *)
Definition existing_combinations (cs : list Coin) : gset string :=
  list_to_set (map (fun bit => combinationKey (bit1 bit) (bit2 bit) (bit3 bit)) cs).

(** [generateUniqueBits()] as a pure function of the coin rows. *)
Definition draw_unique_bits (cs : list Coin) (rnd : nat -> spec_float) : Draw :=
  draw_loop (Z.to_nat (MAX_ATTEMPTS + 1)) (existing_combinations cs) rnd 0%nat 0.

Definition generateUniqueBits (env : Env) : M (Z * Z * Z) :=
  storage env SelectBits
    (fun m =>
       match draw_unique_bits (coins (db m)) (random env) with
       | Found b1 b2 b3 => (Val (b1, b2, b3), m)
       | GaveUp error => (Threw error, m)
       | OutOfFuel => (Threw "unreachable", m)
       end).

Definition generate_POST (req : Request GenerateData) (env : Env) : M Response :=
  match authorization req with
  | NoBearer => ret (reply 401 false "No token provided")
  | Bearer token =>
    match verifyToken env token with
    | None => ret (reply 401 false "Invalid or expired token")
    | Some userData =>
      try_catch
        (let* d := req_json req in
         if value_invalid d
         then ret (reply 400 false "Valid monetary value is required")
         else
           let v := number_of (data_value d) in
           exec_begin ;;
           let* bits := generateUniqueBits env in
           let '(b1, b2, b3) := bits in
           let* coinId := insert_coin env b1 b2 b3 v (userId userData) in
           insert_transaction env (userId userData) coinId (now env) v ;;
           exec_commit env ;;
           transactionCache_clear ;;
           coinCache_clear ;;
           ret (mkResponse 200 true "Coin generated successfully"
                  (Some coinId) (Some (b1, b2, b3)) (Some v)))
        (fun error =>
           exec_rollback ;;
           ret (reply 500 false ("Error generating coin: " +:+ error)))
    end
  end.

(** The two ledger operations as the marketplace client issues them: a
    bearer token and a well-formed JSON body. *)
Definition buy (env : Env) (token : string) (coinId : Z) : M Response :=
  buy_POST (mkRequest (Bearer token) (Some (mkBuyData (Some coinId)))) env.

Definition generate (env : Env) (token : string) (v : Q) : M Response :=
  generate_POST
    (mkRequest (Bearer token) (Some (mkGenerateData (JsNumber v)))) env.

(* ================================================================== *)
(** * GET /api/coins/:id/history *)
(* ================================================================== *)

(** A row of the history query: the transaction joined with its seller
    (LEFT JOIN) and its buyer (JOIN). *)
Record HistoryRow := mkHistoryRow {
  row_transaction_date : string;
  row_amount : Q;
  row_seller_id : option Z;
  row_seller_name : option string;
  row_buyer_id : Z;
  row_buyer_name : string
}.

(** [interface OwnershipRecord], an entry of the ownership timeline. *)
Record OwnershipRecord := mkOwnershipRecord {
  date : string;
  owner_id : option Z;
  owner_name : option string;
  type : string;
  rec_amount : option Q;
  previous_owner_id : option Z;
  previous_owner_name : option string
}.

(** [FROM transactions t LEFT JOIN clients seller ON t.seller_id = seller.id
    JOIN clients buyer ON t.buyer_id = buyer.id] for one transaction: no
    row when the buyer is no client, NULL seller columns when the seller
    is NULL or no client. *)
Definition join_clients (cl : gmap Z string) (t : Transaction) : option HistoryRow :=
  match cl !! buyer_id t with
  | None => None
  | Some buyer_name =>
      let seller := match seller_id t with
                    | Some sid => match cl !! sid with
                                  | Some n => Some (sid, n)
                                  | None => None
                                  end
                    | None => None
                    end in
      Some (mkHistoryRow (transaction_date t) (amount t)
              (fst <$> seller) (snd <$> seller) (buyer_id t) buyer_name)
  end.

(** [ORDER BY t.transaction_date ASC]: text comparison, rows of equal
    date kept in table order. *)
Fixpoint insert_by_date (r : HistoryRow) (l : list HistoryRow) : list HistoryRow :=
  match l with
  | [] => [r]
  | x :: l' =>
      if String.leb (row_transaction_date r) (row_transaction_date x)
      then r :: x :: l'
      else x :: insert_by_date r l'
  end.

Definition order_by_date (l : list HistoryRow) : list HistoryRow :=
  fold_right insert_by_date [] l.

(** The history query of the route, [.all(coinId)]. *)
Definition history_rows (t : Tables) (coinId : Z) : list HistoryRow :=
  order_by_date
    (omap (join_clients (clients t))
       (filter (fun tx => tx_coin_id tx = coinId) (transactions t))).

Definition generated_record (tx : HistoryRow) : OwnershipRecord :=
  mkOwnershipRecord (row_transaction_date tx) (Some (row_buyer_id tx))
    (Some (row_buyer_name tx)) "generated" (Some (row_amount tx))
    None (Some "Original Issuer").

Definition transfer_record (tx : HistoryRow) : OwnershipRecord :=
  mkOwnershipRecord (row_transaction_date tx) (Some (row_buyer_id tx))
    (Some (row_buyer_name tx)) "transfer" (Some (row_amount tx))
    (row_seller_id tx) (row_seller_name tx).

(** The variables of the [for (const tx of transactions)] loop. *)
Record Timeline := mkTimeline {
  ownershipHistory : list OwnershipRecord;
  lastOwnerId : option Z;
  isFirstTransaction : bool
}.

(** One iteration of the loop. *)
Definition timeline_step (st : Timeline) (tx : HistoryRow) : Timeline :=
  mkTimeline
    (ownershipHistory st ++
       [if isFirstTransaction st then generated_record tx
        else transfer_record tx])
    (Some (row_buyer_id tx))
    false.

Definition timeline (rows : list HistoryRow) : Timeline :=
  fold_left timeline_step rows (mkTimeline [] None true).

(** JavaScript truthiness of a nullable integer id. *)
Definition truthy_id (o : option Z) : bool :=
  match o with
  | Some n => negb (n =? 0)
  | None => false
  end.

(** [id ? db.query("SELECT name FROM clients WHERE id = ?").get(id)?.name
    : null] *)
Definition client_name (cl : gmap Z string) (o : option Z) : option string :=
  if truthy_id o then o ≫= (fun n => cl !! n) else None.

(** The [currentOwner] object after its three conditional updates. *)
Definition current_record (t : Tables) (coin : Coin) (tl : Timeline) : OwnershipRecord :=
  let h := ownershipHistory tl in
  mkOwnershipRecord "Current"
    (client_id coin)
    (match client_id coin with
     | None => Some "Available for Purchase"
     | Some _ => client_name (clients t) (client_id coin)
     end)
    "current"
    None
    (match last h with
     | Some r => owner_id r
     | None => lastOwnerId tl
     end)
    (match last h with
     | Some r => owner_name r
     | None => client_name (clients t) (lastOwnerId tl)
     end).

Inductive HistoryResponse :=
| HistoryOk (coinId : Z) (history : list OwnershipRecord)
| HistoryError (st : Z) (msg : string).

(** The route's handler; [None] stands for a path segment that
    [Number.parseInt] turns into [NaN]. *)
Definition project (t : Tables) (coinId : option Z) : HistoryResponse :=
  match coinId with
  | None => HistoryError 400 "Invalid coin ID"
  | Some coinId =>
      match find (fun c => coin_id c =? coinId) (coins t) with
      | None => HistoryError 404 "Coin not found"
      | Some coin =>
          let tl := timeline (history_rows t coinId) in
          HistoryOk coinId (ownershipHistory tl ++ [current_record t coin tl])
      end
  end.

(** The history modal, transfer branch:
    [record.previous_owner_name || "Original Issuer"]. *)
Definition previous_owner_label (record : OwnershipRecord) : string :=
  match previous_owner_name record with
  | Some n => if String.eqb n EmptyString then "Original Issuer" else n
  | None => "Original Issuer"
  end.

(* ================================================================== *)
(** * The response cache *)
(* ================================================================== *)

Definition CACHE_EXPIRY_TIME : Z := 2 * 60 * 1000.

(** [cache.get(key)] followed by the freshness test
    [cachedData && now - cachedData.timestamp < CACHE_EXPIRY_TIME]. *)
Definition cache_hit (cache : gmap string CacheEntry) (key : string)
    (clock : Z) : option PageData :=
  match cache !! key with
  | Some cachedData =>
      if clock - timestamp cachedData <? CACHE_EXPIRY_TIME
      then Some (data cachedData) else None
  | None => None
  end.

(* ================================================================== *)
(** * Reading a handler's run *)
(* ================================================================== *)

(** What the client sees: the response, or nothing when the exception
    escaped the handler. *)
Definition response_of {A} (r : result A * Machine) : option A :=
  match fst r with
  | Val a => Some a
  | Threw _ => None
  end.

(** The operation succeeded: the handler answered with [success: true]. *)
Definition succeeded (r : result Response * Machine) : Prop :=
  exists resp, fst r = Val resp /\ success resp = true.

(** The error taxonomy, read off the responses. *)
Definition NotFoundError (r : result Response * Machine) : Prop :=
  fst r = Val (reply 404 false "Coin not found").

Definition AlreadyOwnedError (r : result Response * Machine) : Prop :=
  fst r = Val (reply 400 false "Coin already has an owner").

Definition ExhaustionError (r : result Response * Machine) : Prop :=
  fst r = Val (reply 500 false
    "Error generating coin: Could not find unique bit combination after many attempts").

(** The triple identifying a coin. *)
Definition triple (c : Coin) : Z * Z * Z := (bit1 c, bit2 c, bit3 c).

(** Every component of every coin lies in 1..10. *)
Definition bits_in_range (cs : list Coin) : Prop :=
  Forall (fun c => 1 <= bit1 c <= 10 /\ 1 <= bit2 c <= 10 /\ 1 <= bit3 c <= 10) cs.

(** No two coin rows carry the same triple. *)
Definition triples_unique (cs : list Coin) : Prop :=
  NoDup (map triple cs).

(** A double that [Math.random()] can return: a valid binary64 number,
    at least 0 and below 1. *)
Definition in_unit_interval (r : spec_float) : Prop :=
  valid_binary 53 1024 r = true /\
  SFleb (S754_zero false) r = true /\
  SFltb r double_one = true.

(** Every [Math.random()] result lies in the half-open unit interval. *)
Definition unit_interval (rnd : nat -> spec_float) : Prop :=
  forall n, in_unit_interval (rnd n).

(** Two coin rows that agree on everything except, possibly, that the
    first is owned by [u1] where the second is owned by [u2]. *)
Definition same_coin_but_owner (u1 u2 : Z) (c1 c2 : Coin) : Prop :=
  coin_id c1 = coin_id c2 /\ triple c1 = triple c2 /\ value c1 = value c2 /\
  (client_id c1 = client_id c2 \/
   (client_id c1 = Some u1 /\ client_id c2 = Some u2)).

(** Two transaction rows that agree on everything except, possibly, that
    the first has buyer [u1] where the second has buyer [u2]. *)
Definition same_transaction_but_buyer (u1 u2 : Z) (t1 t2 : Transaction) : Prop :=
  id t1 = id t2 /\ tx_coin_id t1 = tx_coin_id t2 /\
  seller_id t1 = seller_id t2 /\
  transaction_date t1 = transaction_date t2 /\ amount t1 = amount t2 /\
  (buyer_id t1 = buyer_id t2 \/ (buyer_id t1 = u1 /\ buyer_id t2 = u2)).

(** Two machine states that differ at most in the user id recorded as
    owner of a coin and as buyer of a transaction. *)
Definition differ_only_in_requester (u1 u2 : Z) (m1 m2 : Machine) : Prop :=
  Forall2 (same_coin_but_owner u1 u2) (coins (db m1)) (coins (db m2)) /\
  Forall2 (same_transaction_but_buyer u1 u2)
    (transactions (db m1)) (transactions (db m2)) /\
  clients (db m1) = clients (db m2) /\
  open_tx m1 = open_tx m2 /\
  transactionCache m1 = transactionCache m2 /\
  coinCache m1 = coinCache m2.

(** The order of [ORDER BY t.transaction_date ASC]. *)
Definition date_le (a b : HistoryRow) : Prop :=
  String.leb (row_transaction_date a) (row_transaction_date b) = true.

(** Every transaction refers to a coin row. *)
Definition transactions_refer_to_coins (t : Tables) : Prop :=
  Forall (fun tx => In (tx_coin_id tx) (map coin_id (coins t))) (transactions t).

(** One request served by the process. The read routes only store a page
    in their cache; registration only adds a client. *)
Inductive step : Machine -> Machine -> Prop :=
| step_buy req env m :
    step m (snd (buy_POST req env m))
| step_generate req env m :
    step m (snd (generate_POST req env m))
| step_cache_transactions key entry m :
    step m (mkMachine (db m) (open_tx m)
              (<[key := entry]> (transactionCache m)) (coinCache m))
| step_cache_coins key entry m :
    step m (mkMachine (db m) (open_tx m)
              (transactionCache m) (<[key := entry]> (coinCache m)))
| step_register uid name m :
    clients (db m) !! uid = None ->
    step m (set_db (mkTables (coins (db m)) (transactions (db m))
                      (<[uid := name]> (clients (db m)))) m).

(** The states the process can be in between two requests, starting from
    the seeded database [m0]. *)
Inductive reachable (m0 : Machine) : Machine -> Prop :=
| reach_init : reachable m0 m0
| reach_step m m' : reachable m0 m -> step m m' -> reachable m0 m'.

(** The facts carried from request to request: no transaction is left
    open, the triples are pairwise distinct, and the triples of the seeded
    store are all still there. *)
Definition store_invariant (m0 m : Machine) : Prop :=
  open_tx m = None /\
  triples_unique (coins (db m)) /\
  incl (map triple (coins (db m0))) (map triple (coins (db m))).

(* ================================================================== *)
(** * The combination space and sample data *)
(* ================================================================== *)

(** The 10 x 10 x 10 triples with components in 1..10. *)
Definition combination_space : list (Z * Z * Z) :=
  list_prod (list_prod (seqZ 1 10) (seqZ 1 10)) (seqZ 1 10).

Definition MAX_COMBINATIONS : nat := 10 * 10 * 10.

Module Sample.

(** Two registered clients holding one token each. *)
Definition alice : TokenData := mkTokenData 1 "alice@example.com" 0.
Definition bob : TokenData := mkTokenData 2 "bob@example.com" 0.

(** Successive [Math.random()] results: the doubles 0.0, 0.1, ..., 0.9,
    0.0, ... (each the double quotient of a small integer by 10). *)
Definition env : Env :=
  mkEnv (fun n => SFdiv 53 1024
                    (binary_normalize 53 1024 (Z.of_nat (n mod 10)) 0 false)
                    double_ten)
    "2025-03-01T12:00:00.000Z"
    (fun token =>
       if String.eqb token "alice-token" then Some alice
       else if String.eqb token "bob-token" then Some bob
       else None)
    (fun _ => false).

Definition page : CacheEntry :=
  mkCacheEntry (mkPageData ["row"] 1 1 10) 1000.

(** Coin 1 is for sale, coin 2 was minted by Alice. *)
Definition tables : Tables :=
  mkTables
    [mkCoin 1 1 2 3 (50 # 1) None; mkCoin 2 4 5 6 (75 # 1) (Some 1)]
    [mkTransaction 1 2 1 None "2025-01-01T00:00:00.000Z" (75 # 1)]
    (list_to_map [(1, "Alice"); (2, "Bob")]).

Definition machine : Machine :=
  mkMachine tables None {["transactions-1-10-{}" := page]}
    {["coins-1-10" := page]}.

Definition buy_request (token : string) (coinId : Z) : Request BuyData :=
  mkRequest (Bearer token) (Some (mkBuyData (Some coinId))).

Definition generate_request (token : string) (v : Q) : Request GenerateData :=
  mkRequest (Bearer token) (Some (mkGenerateData (JsNumber v))).

(** A store in which every triple of the space is taken. *)
Definition full_coins : list Coin :=
  imap (fun i t => mkCoin (Z.of_nat i + 1) t.1.1 t.1.2 t.2 (1 # 1) None)
    combination_space.

Definition full_machine : Machine :=
  mkMachine (mkTables full_coins [] (list_to_map [(1, "Alice")])) None ∅ ∅.

(** Coin 2 with two later transactions, one naming its seller and one
    without a seller, as seeded data may contain. *)
Definition resold : Tables :=
  mkTables
    [mkCoin 2 4 5 6 (75 # 1) (Some 1)]
    [mkTransaction 2 2 2 (Some 1) "2025-02-01T00:00:00.000Z" (80 # 1);
     mkTransaction 1 2 1 None "2025-01-01T00:00:00.000Z" (75 # 1);
     mkTransaction 3 2 1 None "2025-02-15T00:00:00.000Z" (90 # 1)]
    (list_to_map [(1, "Alice"); (2, "Bob")]).

(** The third row of the history of coin 2 in [resold], by ascending
    date. *)
Definition last_sale : HistoryRow :=
  mkHistoryRow "2025-02-15T00:00:00.000Z" (90 # 1) None None 1 "Alice".

Definition resold_history : list OwnershipRecord :=
  [mkOwnershipRecord "2025-01-01T00:00:00.000Z" (Some 1) (Some "Alice")
     "generated" (Some (75 # 1)) None (Some "Original Issuer");
   mkOwnershipRecord "2025-02-01T00:00:00.000Z" (Some 2) (Some "Bob")
     "transfer" (Some (80 # 1)) (Some 1) (Some "Alice");
   mkOwnershipRecord "2025-02-15T00:00:00.000Z" (Some 1) (Some "Alice")
     "transfer" (Some (90 # 1)) None None;
   mkOwnershipRecord "Current" (Some 1) (Some "Alice")
     "current" None (Some 1) (Some "Alice")].

End Sample.

(* ================================================================== *)
(** * Proof support *)
(* ================================================================== *)

(** Exposes the state-passing code of a handler. *)
Ltac unfold_monad :=
  unfold try_catch, bind, req_json,
    exec_begin, exec_rollback, exec_commit, select_coin, update_coin_owner,
    insert_transaction, insert_coin, generateUniqueBits,
    transactionCache_clear, coinCache_clear, storage, throw, ret, set_db in *.

(** Rolling back right after [BEGIN] gives the machine back. *)
Lemma machine_eta (m : Machine) :
  open_tx m = None ->
  mkMachine (db m) None (transactionCache m) (coinCache m) = m.
Proof. destruct m; simpl; intros ->; reflexivity. Qed.

(** A run whose answer is not [success: true]. *)
Ltac not_succeeded :=
  let resp := fresh "resp" in
  let E := fresh "E" in
  unfold succeeded; simpl; intros (resp & E & ?); inversion E; subst; simpl in *; done.

(** Closes a branch of a handler that fails: no success, caches as before,
    and the whole machine as before when no transaction was open. *)
Ltac failed_run :=
  right; simpl; split; [|split; [|split]];
  [ not_succeeded | reflexivity | reflexivity
  | first [ done | congruence | reflexivity
          | intros _; apply machine_eta; assumption ] ].

(** Every run of the buy handler either is the one successful path, with
    the state it produces, or fails without touching the caches (nor the
    store, when it started with no transaction open). *)
Lemma buy_POST_cases (req : Request BuyData) (env : Env) (m : Machine) :
  let r := buy_POST req env m in
  (exists token userData coinId coin,
      authorization req = Bearer token /\
      verifyToken env token = Some userData /\
      json req = Some (mkBuyData (Some coinId)) /\
      coinId <> 0 /\
      open_tx m = None /\
      find (fun c => coin_id c =? coinId) (coins (db m)) = Some coin /\
      client_id coin = None /\
      r = (Val (mkResponse 200 true "Coin purchased successfully"
                  (Some coinId) None None),
           mkMachine
             (mkTables
                (map (fun c => if coin_id c =? coinId
                               then set_owner (userId userData) c else c)
                   (coins (db m)))
                (transactions (db m) ++
                   [mkTransaction (next_rowid (map id (transactions (db m))))
                      coinId (userId userData) None (now env) (value coin)])
                (clients (db m)))
             None ∅ ∅))
  \/ (~ succeeded r /\
      transactionCache (snd r) = transactionCache m /\
      coinCache (snd r) = coinCache m /\
      (open_tx m = None -> snd r = m)).
Proof.
  unfold buy_POST.
  destruct (authorization req) as [|token] eqn:Hauth; [failed_run|].
  destruct (verifyToken env token) as [ud|] eqn:Hver; [|failed_run].
  destruct (json req) as [[[cid|]]|] eqn:Hjson;
    unfold_monad; rewrite ?Hjson; unfold coin_id_missing; simpl.
  - destruct (cid =? 0) eqn:Hz; [failed_run|].
    destruct (open_tx m) eqn:Hopen; simpl; [rewrite Hopen; failed_run|].
    destruct (storage_fault env SelectCoin) eqn:F1; simpl; [failed_run|].
    destruct (find _ _) as [coin|] eqn:Hfind; simpl; [|failed_run].
    destruct (client_id coin) eqn:Hown; simpl; [failed_run|].
    destruct (storage_fault env UpdateCoinOwner) eqn:F2; simpl; [failed_run|].
    destruct (storage_fault env InsertTransaction) eqn:F3; simpl; [failed_run|].
    destruct (storage_fault env Commit) eqn:F4; simpl; [failed_run|].
    left. exists token, ud, cid, coin.
    repeat split; try assumption. intros ->; discriminate.
  - failed_run.
  - destruct (open_tx m) eqn:Hopen; simpl; failed_run.
Qed.

(** A value passes the validation only if it is a positive number. *)
Lemma value_valid_inv (d : GenerateData) :
  value_invalid d = false ->
  exists q, data_value d = JsNumber q /\ (0 < q)%Q.
Proof.
  unfold value_invalid. destruct d as [v]; simpl.
  destruct v as [| |b|q|s]; simpl; rewrite ?orb_true_r; try discriminate.
  intros H. apply orb_false_iff in H as [H1 H2].
  apply orb_false_iff in H1 as [H1 _].
  exists q. split; [reflexivity|].
  apply Qnot_le_lt. intros Hle. apply Qle_bool_iff in Hle. congruence.
Qed.

(** The same alternative for the generate handler. *)
Lemma generate_POST_cases (req : Request GenerateData) (env : Env) (m : Machine) :
  let r := generate_POST req env m in
  (exists token userData q b1 b2 b3,
      authorization req = Bearer token /\
      verifyToken env token = Some userData /\
      json req = Some (mkGenerateData (JsNumber q)) /\
      (0 < q)%Q /\
      open_tx m = None /\
      draw_unique_bits (coins (db m)) (random env) = Found b1 b2 b3 /\
      let coinId := next_rowid (map coin_id (coins (db m))) in
      r = (Val (mkResponse 200 true "Coin generated successfully"
                  (Some coinId) (Some (b1, b2, b3)) (Some q)),
           mkMachine
             (mkTables
                (coins (db m) ++
                   [mkCoin coinId b1 b2 b3 q (Some (userId userData))])
                (transactions (db m) ++
                   [mkTransaction (next_rowid (map id (transactions (db m))))
                      coinId (userId userData) None (now env) q])
                (clients (db m)))
             None ∅ ∅))
  \/ (~ succeeded r /\
      transactionCache (snd r) = transactionCache m /\
      coinCache (snd r) = coinCache m /\
      (open_tx m = None -> snd r = m)).
Proof.
  unfold generate_POST.
  destruct (authorization req) as [|token] eqn:Hauth; [failed_run|].
  destruct (verifyToken env token) as [ud|] eqn:Hver; [|failed_run].
  destruct (json req) as [d|] eqn:Hjson;
    unfold_monad; rewrite ?Hjson; simpl.
  - destruct (value_invalid d) eqn:Hv; [failed_run|].
    apply value_valid_inv in Hv as (q & Hq & Hpos).
    destruct d as [v]; simpl in Hq; subst v; simpl.
    destruct (open_tx m) eqn:Hopen; simpl; [rewrite Hopen; failed_run|].
    destruct (storage_fault env SelectBits) eqn:F1; simpl; [failed_run|].
    destruct (draw_unique_bits _ _) as [b1 b2 b3|e|] eqn:Hdraw; simpl;
      [|failed_run|failed_run].
    destruct (storage_fault env InsertCoin) eqn:F2; simpl; [failed_run|].
    destruct (storage_fault env InsertTransaction) eqn:F3; simpl; [failed_run|].
    destruct (storage_fault env Commit) eqn:F4; simpl; [failed_run|].
    left. exists token, ud, q, b1, b2, b3.
    repeat split; assumption.
  - destruct (open_tx m) eqn:Hopen; simpl; failed_run.
Qed.

(** ** The draw loop *)

(** ** Double arithmetic: the product with ten *)

(** [iter_pos] is iteration a number of times. *)
Lemma iter_pos_nat {A} (f : A -> A) (p : positive) (x : A) :
  SpecFloat.iter_pos f p x = Nat.iter (Pos.to_nat p) f x.
Proof.
  revert x. induction p as [p IH|p IH|]; intros x; cbn [SpecFloat.iter_pos].
  - rewrite !IH, Pos2Nat.inj_xI.
    replace (S (2 * Pos.to_nat p))%nat
      with (Pos.to_nat p + S (Pos.to_nat p))%nat by lia.
    rewrite Nat.iter_add, Nat.iter_succ_r. reflexivity.
  - rewrite !IH, Pos2Nat.inj_xO.
    replace (2 * Pos.to_nat p)%nat with (Pos.to_nat p + Pos.to_nat p)%nat by lia.
    rewrite Nat.iter_add. reflexivity.
  - reflexivity.
Qed.

(** After [n] one-bit shifts of a non-negative mantissa that was exact,
    the quotient and the remainder, with the round bit telling whether
    the remainder reaches one half. *)
Lemma shr_1_iter (m : Z) (n : nat) :
  0 <= m ->
  exists rem,
    0 <= rem < 2 ^ Z.of_nat n /\
    m = 2 ^ Z.of_nat n * shr_m (Nat.iter n shr_1 (Build_shr_record m false false)) + rem /\
    0 <= shr_m (Nat.iter n shr_1 (Build_shr_record m false false)) /\
    (shr_r (Nat.iter n shr_1 (Build_shr_record m false false)) = true ->
     2 ^ Z.of_nat n <= 2 * rem).
Proof.
  intros Hm. induction n as [|n IH].
  - exists 0. simpl. repeat split; try lia; try discriminate.
  - destruct IH as (rem & Hrem & Heq & Hq & _).
    rewrite Nat2Z.inj_succ, Z.pow_succ_r by lia.
    simpl Nat.iter.
    destruct (Nat.iter n shr_1 _) as [q r s]. simpl in Heq, Hq.
    destruct q as [|[q|q|]|q]; simpl; try lia.
    + exists rem. repeat split; try lia; try discriminate.
    + exists (2 ^ Z.of_nat n + rem). repeat split; try lia; try discriminate.
    + exists rem. repeat split; try lia; try discriminate.
    + exists (2 ^ Z.of_nat n + rem). repeat split; try lia; try discriminate.
Qed.

(** [shr] on an exact non-negative mantissa: the exponent grows by the
    number [k] of bits dropped, and the mantissa is the quotient. *)
Lemma shr_exact (m e n : Z) :
  0 <= m ->
  exists k rem,
    k = Z.max 0 n /\
    snd (shr (Build_shr_record m false false) e n) = e + k /\
    0 <= rem < 2 ^ k /\
    m = 2 ^ k * shr_m (fst (shr (Build_shr_record m false false) e n)) + rem /\
    0 <= shr_m (fst (shr (Build_shr_record m false false) e n)) /\
    (shr_r (fst (shr (Build_shr_record m false false) e n)) = true ->
     2 ^ k <= 2 * rem).
Proof.
  intros Hm. destruct n as [|p|p]; simpl.
  - exists 0, 0. repeat split; try lia; try discriminate.
  - rewrite iter_pos_nat.
    destruct (shr_1_iter m (Pos.to_nat p) Hm) as (rem & Hrem & Heq & Hq & Hr).
    rewrite positive_nat_Z in *.
    exists (Z.pos p), rem. repeat split; try lia; assumption.
  - exists 0, 0. repeat split; try lia; try discriminate.
Qed.

(** Rounding to nearest even moves the quotient up by at most one, and
    only when the round bit is set. *)
Lemma round_nearest_even_bound (mrs : shr_record) :
  shr_m mrs <= round_nearest_even (shr_m mrs) (loc_of_shr_record mrs)
            <= shr_m mrs + 1 /\
  (shr_r mrs = false ->
   round_nearest_even (shr_m mrs) (loc_of_shr_record mrs) = shr_m mrs).
Proof.
  destruct mrs as [q [|] [|]]; simpl; try lia.
  destruct (Z.even q); lia.
Qed.

Lemma digits2_pos_bounds (m : positive) :
  2 ^ (Z.pos (digits2_pos m) - 1) <= Z.pos m < 2 ^ Z.pos (digits2_pos m).
Proof.
  induction m as [m IH|m IH|]; simpl digits2_pos.
  - rewrite Pos2Z.inj_succ.
    replace (Z.succ (Z.pos (digits2_pos m)) - 1)
      with (Z.succ (Z.pos (digits2_pos m) - 1)) by lia.
    rewrite !Z.pow_succ_r by lia. lia.
  - rewrite Pos2Z.inj_succ.
    replace (Z.succ (Z.pos (digits2_pos m)) - 1)
      with (Z.succ (Z.pos (digits2_pos m) - 1)) by lia.
    rewrite !Z.pow_succ_r by lia. lia.
  - simpl. lia.
Qed.

Lemma digits2_pos_le (m : positive) (k : Z) :
  Z.pos m < 2 ^ k -> Z.pos (digits2_pos m) <= k.
Proof.
  intros Hlt. destruct (digits2_pos_bounds m) as [Hlo _].
  destruct (Z.le_gt_cases (Z.pos (digits2_pos m)) k) as [|Hgt]; [assumption|].
  exfalso.
  assert (Hk : 0 <= k).
  { destruct (Z.le_gt_cases 0 k); [assumption|].
    rewrite Z.pow_neg_r in Hlt by lia. lia. }
  assert (2 ^ k <= 2 ^ (Z.pos (digits2_pos m) - 1))
    by (apply Z.pow_le_mono_r; lia).
  lia.
Qed.

Lemma fexp_binary64 (x : Z) : fexp 53 1024 x = Z.max (x - 53) (-1074).
Proof. reflexivity. Qed.

(** The double product of a double below one with ten is zero or a
    positive double below ten. *)
Lemma mul_ten_below_ten (m : positive) (e : Z) :
  Z.pos (digits2_pos m) <= 53 -> -1074 <= e <= -53 ->
  double_mul (S754_finite false m e) double_ten = S754_zero false \/
  exists m' e',
    double_mul (S754_finite false m e) double_ten = S754_finite false m' e' /\
    e' < 0 /\ Z.pos m' < 10 * 2 ^ (- e').
Proof.
  intros Hdig He.
  unfold double_mul, SFmul, double_ten, binary_round_aux, shr_fexp. cbn [xorb shr_record_of_loc].
  set (P := Z.pos (m * 5629499534213120)).
  set (ex := e + -49).
  (* the operand and the exact product *)
  assert (Hm : Z.pos m < 2 ^ 53).
  { destruct (digits2_pos_bounds m) as [_ Hhi].
    eapply Z.lt_le_trans; [exact Hhi|]. apply Z.pow_le_mono_r; lia. }
  assert (HP : P = Z.pos m * (5 * 2 ^ 50)) by (unfold P; rewrite Pos2Z.inj_mul; reflexivity).
  set (T := 2 ^ (- e)).
  assert (HT : 2 ^ 53 <= T) by (apply Z.pow_le_mono_r; lia).
  assert (Hex : 2 ^ (- ex) = 2 ^ 49 * T).
  { unfold ex, T. replace (- (e + -49)) with (49 + - e) by lia.
    rewrite Z.pow_add_r by lia. reflexivity. }
  assert (HPT : P + 5 * 2 ^ 50 <= 10 * 2 ^ (- ex)).
  { rewrite Hex, HP. change (2 ^ 53) with 9007199254740992 in *.
    change (2 ^ 50) with 1125899906842624.
    change (2 ^ 49) with 562949953421312. lia. }
  assert (HdP : 53 <= Zdigits2 P <= 106 /\ Zdigits2 P <= 53 - e).
  { unfold P at 1 2 3. cbn [Zdigits2].
    destruct (digits2_pos_bounds (m * 5629499534213120)) as [_ Hhi].
    fold P in Hhi. split; [split|].
    - destruct (Z.le_gt_cases 53 (Z.pos (digits2_pos (m * 5629499534213120))))
        as [|Hlt]; [assumption|].
      assert (2 ^ Z.pos (digits2_pos (m * 5629499534213120)) <= 2 ^ 52)
        by (apply Z.pow_le_mono_r; lia).
      change (2 ^ 52) with 4503599627370496 in *.
      change (2 ^ 50) with 1125899906842624 in *. lia.
    - apply digits2_pos_le. fold P.
      change (2 ^ 106) with (2 ^ 53 * (8 * 2 ^ 50)).
      change (2 ^ 53) with 9007199254740992 in *.
      change (2 ^ 50) with 1125899906842624 in *. lia.
    - apply digits2_pos_le. fold P.
      replace (53 - e) with (53 + - e) by lia.
      rewrite Z.pow_add_r by lia. fold T.
      change (2 ^ 53) with 9007199254740992 in *.
      change (2 ^ 50) with 1125899906842624 in *. nia. }
  destruct HdP as [[HdP53 HdP106] HdPe].
  (* first shift and rounding *)
  rewrite fexp_binary64.
  set (n1 := Z.max (Zdigits2 P + ex - 53) (-1074) - ex).
  destruct (shr_exact P ex n1 ltac:(unfold P; lia))
    as (k1 & rem1 & Hk1 & He1 & Hrem1 & Heq1 & Hq1 & Hr1).
  destruct (shr (Build_shr_record P false false) ex n1) as [mrs1 e1] eqn:Hshr1.
  cbn [fst snd] in *.
  assert (Hk1b : 0 <= k1 <= 53 /\ e1 <= -49 /\ -1074 <= e1 /\ - ex = k1 + - e1).
  { unfold n1, ex in *. lia. }
  destruct Hk1b as (Hk1b & He1hi & He1lo & Hsplit1).
  destruct (round_nearest_even_bound mrs1) as [Hrne Hrne_exact].
  set (m1 := round_nearest_even (shr_m mrs1) (loc_of_shr_record mrs1)) in *.
  assert (Hpow1 : 2 ^ (- ex) = 2 ^ k1 * 2 ^ (- e1)).
  { rewrite Hsplit1, Z.pow_add_r by lia. reflexivity. }
  assert (Hk1pow : 0 < 2 ^ k1 <= 2 ^ 53).
  { split; [apply Z.pow_pos_nonneg; lia | apply Z.pow_le_mono_r; lia]. }
  assert (Hm1 : 0 <= m1 /\ m1 < 10 * 2 ^ (- e1)).
  { split; [lia|].
    assert (Hup : 2 * (2 ^ k1 * m1) <= 2 * P + 2 ^ k1).
    { destruct (shr_r mrs1) eqn:Hr.
      - specialize (Hr1 eq_refl). nia.
      - rewrite (Hrne_exact eq_refl). lia. }
    assert (Hlt : 2 ^ k1 * m1 < 2 ^ k1 * (10 * 2 ^ (- e1))).
    { replace (2 ^ k1 * (10 * 2 ^ (- e1))) with (10 * 2 ^ (- ex))
        by (rewrite Hpow1; ring).
      change (2 ^ 53) with 9007199254740992 in *.
      change (2 ^ 50) with 1125899906842624 in *. lia. }
    apply Z.mul_lt_mono_pos_l in Hlt; lia. }
  destruct Hm1 as [Hm1pos Hm1lt].
  (* second shift *)
  rewrite fexp_binary64.
  set (n2 := Z.max (Zdigits2 m1 + e1 - 53) (-1074) - e1).
  destruct (shr_exact m1 e1 n2 Hm1pos)
    as (k2 & rem2 & Hk2 & He2 & Hrem2 & Heq2 & Hq2 & _).
  destruct (shr (Build_shr_record m1 false false) e1 n2) as [mrs2 e2] eqn:Hshr2.
  cbn [fst snd] in *.
  assert (Hdm1 : Zdigits2 m1 <= 4 - e1).
  { destruct m1 as [|p1|p1] eqn:Hp1; cbn [Zdigits2]; try lia.
    apply digits2_pos_le.
    replace (4 - e1) with (4 + - e1) by lia.
    rewrite Z.pow_add_r by lia. change (2 ^ 4) with 16. lia. }
  assert (Hk2b : 0 <= k2 /\ e2 <= -49 /\ - e1 = k2 + - e2).
  { unfold n2 in *. lia. }
  destruct Hk2b as (Hk2b & He2hi & Hsplit2).
  assert (Hpow2 : 2 ^ (- e1) = 2 ^ k2 * 2 ^ (- e2)).
  { rewrite Hsplit2, Z.pow_add_r by lia. reflexivity. }
  assert (Hk2pow : 0 < 2 ^ k2) by (apply Z.pow_pos_nonneg; lia).
  assert (Hq2lt : shr_m mrs2 < 10 * 2 ^ (- e2)).
  { assert (Hlt : 2 ^ k2 * shr_m mrs2 < 2 ^ k2 * (10 * 2 ^ (- e2))).
    { replace (2 ^ k2 * (10 * 2 ^ (- e2))) with (10 * 2 ^ (- e1))
        by (rewrite Hpow2; ring). lia. }
    apply Z.mul_lt_mono_pos_l in Hlt; lia. }
  destruct (shr_m mrs2) as [|m2|m2] eqn:Hm2; [left; reflexivity| |lia].
  right. exists m2, e2.
  replace (e2 <=? 1024 - 53) with true by (symmetry; apply Z.leb_le; lia).
  repeat split; lia.
Qed.

Lemma unit_double_shape (r : spec_float) :
  in_unit_interval r ->
  (exists s, r = S754_zero s) \/
  exists m e, r = S754_finite false m e /\
              Z.pos (digits2_pos m) <= 53 /\ -1074 <= e <= -53.
Proof.
  intros (Hvalid & Hpos & Hlt).
  destruct r as [s|[|]| |[|] m e].
  - left; eauto.
  - cbv in Hpos. discriminate Hpos.
  - cbv in Hlt. discriminate Hlt.
  - cbv in Hlt. discriminate Hlt.
  - cbv in Hpos. discriminate Hpos.
  - right. exists m, e. split; [reflexivity|].
    unfold valid_binary, bounded, canonical_mantissa in Hvalid.
    apply andb_true_iff in Hvalid as [Hcanon _].
    apply Z.eqb_eq in Hcanon. rewrite fexp_binary64 in Hcanon.
    
    unfold SFltb, SFcompare, double_one in Hlt.
    
    destruct (Z.compare_spec e (-52)) as [Heq|He|He].
    + exfalso. subst e.
      destruct (digits2_pos_bounds m) as [Hlo _].
      assert (Hd : Z.pos (digits2_pos m) = 53) by lia.
      
      rewrite Hd in Hlo. change (2 ^ (53 - 1)) with 4503599627370496 in Hlo.
      
      destruct (Pos.compare_cont Eq m 4503599627370496) eqn:Hc;
        try discriminate Hlt.
      
      assert (Hz : Z.pos m < 4503599627370496) by exact Hc.
      clear - Hz Hlo. lia.
    + lia.
    + discriminate Hlt.
Qed.

(** The rounding of the product is visible in the components: the double
    nearest 0.6 is below 0.6, yet its product with 10 rounds to 6 and the
    component is 7; the largest double below 1 gives 10. *)
Example random_bit_near_six_tenths :
  random_bit (S754_finite false 5404319552844595 (-53)) = 7.
Proof. vm_compute. reflexivity. Qed.

Example random_bit_largest_below_one :
  random_bit (S754_finite false 9007199254740991 (-53)) = 10.
Proof. vm_compute. reflexivity. Qed.

(** Every component drawn from a [Math.random()] result lies in 1..10. *)
Lemma random_bit_range (r : spec_float) :
  in_unit_interval r -> 1 <= random_bit r <= 10.
Proof.
  intros Hr. unfold random_bit.
  destruct (unit_double_shape r Hr) as [[s ->]|(m & e & -> & Hdig & He)].
  - simpl. lia.
  - destruct (mul_ten_below_ten m e Hdig He) as [->|(m' & e' & -> & He' & Hlt)].
    + simpl. lia.
    + unfold Math_floor. cbn [cond_Zopp].
      rewrite Z.shiftl_div_pow2 by lia.
      assert (0 < 2 ^ (- e')) by (apply Z.pow_pos_nonneg; lia).
      assert (0 <= Z.pos m' / 2 ^ (- e')) by (apply Z.div_pos; lia).
      assert (Z.pos m' / 2 ^ (- e') < 10)
        by (apply Z.div_lt_upper_bound; lia).
      lia.
Qed.

Lemma draw_loop_total fuel ex rnd pos attempts :
  attempts <= MAX_ATTEMPTS ->
  MAX_ATTEMPTS < attempts + Z.of_nat fuel ->
  draw_loop fuel ex rnd pos attempts <> OutOfFuel.
Proof.
  revert pos attempts.
  induction fuel as [|fuel IH]; intros pos attempts Hle Hfuel; simpl.
  - lia.
  - destruct (MAX_ATTEMPTS <? attempts + 1) eqn:Hmax; [discriminate|].
    destruct (bool_decide _); [|discriminate].
    apply IH; lia.
Qed.

Lemma draw_unique_bits_total cs rnd :
  draw_unique_bits cs rnd <> OutOfFuel.
Proof.
  unfold draw_unique_bits. apply draw_loop_total; unfold MAX_ATTEMPTS; lia.
Qed.

(** A triple that the loop returns was produced by three consecutive
    [Math.random()] calls and its key is not in the set. *)
Lemma draw_loop_found fuel ex rnd pos attempts b1 b2 b3 :
  draw_loop fuel ex rnd pos attempts = Found b1 b2 b3 ->
  (combinationKey b1 b2 b3 ∉ ex) /\
  exists k, b1 = random_bit (rnd k) /\ b2 = random_bit (rnd (S k)) /\
            b3 = random_bit (rnd (S (S k))).
Proof.
  revert pos attempts.
  induction fuel as [|fuel IH]; intros pos attempts; simpl; [discriminate|].
  destruct (MAX_ATTEMPTS <? attempts + 1); [discriminate|].
  destruct (bool_decide _) eqn:Hin.
  - apply IH.
  - intros [= <- <- <-]. split.
    + apply bool_decide_eq_false in Hin. exact Hin.
    + exists pos. auto.
Qed.

Lemma key_in_existing (cs : list Coin) (c : Coin) :
  In c cs ->
  combinationKey (bit1 c) (bit2 c) (bit3 c) ∈ existing_combinations cs.
Proof.
  intros Hin. unfold existing_combinations.
  apply elem_of_list_to_set, list_elem_of_In.
  apply (in_map (fun bit => combinationKey (bit1 bit) (bit2 bit) (bit3 bit))).
  exact Hin.
Qed.

Lemma triple_in_existing (cs : list Coin) (b1 b2 b3 : Z) :
  In (b1, b2, b3) (map triple cs) ->
  combinationKey b1 b2 b3 ∈ existing_combinations cs.
Proof.
  intros Hin. apply in_map_iff in Hin as (c & Hc & Hin).
  unfold triple in Hc. injection Hc as <- <- <-.
  apply key_in_existing, Hin.
Qed.

(** No collision: the triple that [generateUniqueBits] returns belongs to
    no existing coin. *)
Lemma draw_unique_bits_fresh cs rnd b1 b2 b3 :
  draw_unique_bits cs rnd = Found b1 b2 b3 ->
  ~ In (b1, b2, b3) (map triple cs).
Proof.
  intros Hdraw Hin. apply draw_loop_found in Hdraw as [Hfresh _].
  apply Hfresh, triple_in_existing, Hin.
Qed.

Lemma draw_unique_bits_range cs rnd b1 b2 b3 :
  unit_interval rnd ->
  draw_unique_bits cs rnd = Found b1 b2 b3 ->
  1 <= b1 <= 10 /\ 1 <= b2 <= 10 /\ 1 <= b3 <= 10.
Proof.
  intros Hrnd Hdraw.
  apply draw_loop_found in Hdraw as [_ (k & -> & -> & ->)].
  repeat split; apply random_bit_range; apply Hrnd.
Qed.

(** When every key the loop can draw is taken, the loop gives up. *)
Lemma draw_loop_exhausted fuel ex rnd pos attempts :
  (forall k, combinationKey (random_bit (rnd k)) (random_bit (rnd (S k)))
               (random_bit (rnd (S (S k)))) ∈ ex) ->
  attempts <= MAX_ATTEMPTS ->
  MAX_ATTEMPTS < attempts + Z.of_nat fuel ->
  draw_loop fuel ex rnd pos attempts =
  GaveUp "Could not find unique bit combination after many attempts".
Proof.
  intros Hall. revert pos attempts.
  induction fuel as [|fuel IH]; intros pos attempts Hle Hfuel; simpl.
  - lia.
  - destruct (MAX_ATTEMPTS <? attempts + 1) eqn:Hmax; [reflexivity|].
    rewrite bool_decide_eq_true_2 by apply Hall.
    apply IH; lia.
Qed.

(** ** Rows and ids *)

Lemma next_rowid_above (ids : list Z) :
  Forall (fun i => i < next_rowid ids) ids.
Proof.
  unfold next_rowid. induction ids as [|i ids IH]; constructor; simpl.
  - lia.
  - eapply Forall_impl; [exact IH|]. simpl. intros j Hj. lia.
Qed.

Lemma set_owner_triples (buyerId coinId : Z) (cs : list Coin) :
  map triple
    (map (fun c => if coin_id c =? coinId then set_owner buyerId c else c) cs)
  = map triple cs.
Proof.
  rewrite map_map. apply map_ext. intros c.
  destruct (coin_id c =? coinId); reflexivity.
Qed.

Lemma triples_unique_snoc (cs : list Coin) (c : Coin) :
  triples_unique cs -> ~ In (triple c) (map triple cs) ->
  triples_unique (cs ++ [c]).
Proof.
  unfold triples_unique. intros Hnd Hfresh. rewrite map_app. simpl.
  apply NoDup_app. split; [exact Hnd|]. split.
  - intros t Ht Hc. apply list_elem_of_In in Ht.
    apply list_elem_of_singleton in Hc. subst t. contradiction.
  - apply NoDup_singleton.
Qed.

(** ** What one request preserves *)

Lemma step_invariant (m0 m m' : Machine) :
  store_invariant m0 m -> step m m' -> store_invariant m0 m'.
Proof.
  intros (Hidle & Huniq & Hkeep) Hstep.
  destruct Hstep as [req env m|req env m|key entry m|key entry m|uid name m Hnew].
  - destruct (buy_POST_cases req env m)
      as [(token & ud & cid & coin & _ & _ & _ & _ & _ & _ & _ & Hr)
         |(_ & _ & _ & Hsame)].
    + rewrite Hr. unfold store_invariant, triples_unique. simpl.
      rewrite set_owner_triples. auto.
    + rewrite (Hsame Hidle). repeat split; assumption.
  - destruct (generate_POST_cases req env m)
      as [(token & ud & q & b1 & b2 & b3 & _ & _ & _ & _ & _ & Hdraw & Hr)
         |(_ & _ & _ & Hsame)].
    + simpl in Hr. rewrite Hr. unfold store_invariant. simpl.
      split; [reflexivity|]. split.
      * apply triples_unique_snoc; [exact Huniq|].
        apply (draw_unique_bits_fresh _ _ _ _ _ Hdraw).
      * rewrite map_app. intros t Ht. apply in_or_app. left. apply Hkeep, Ht.
    + rewrite (Hsame Hidle). repeat split; assumption.
  - repeat split; assumption.
  - repeat split; assumption.
  - repeat split; assumption.
Qed.

Lemma reachable_invariant (m0 m : Machine) :
  open_tx m0 = None -> triples_unique (coins (db m0)) ->
  reachable m0 m -> store_invariant m0 m.
Proof.
  intros Hidle Huniq Hreach. induction Hreach as [|m m' _ IH Hstep].
  - repeat split; try assumption. apply incl_refl.
  - eapply step_invariant; eassumption.
Qed.

(* ================================================================== *)
(** * Properties *)
(* ================================================================== *)

(** C1. In every state reachable from a seeded store whose triples are
    pairwise distinct, the triples of all coin rows (owned or not) are
    pairwise distinct; a triple that [generateUniqueBits] draws in such a
    state belongs to no existing coin; and no triple of the seeded store
    has disappeared (no request deletes a coin). *)
Theorem C1_triples_stay_unique (m0 m : Machine) :
  open_tx m0 = None ->
  triples_unique (coins (db m0)) ->
  reachable m0 m ->
  triples_unique (coins (db m)) /\
  (forall rnd b1 b2 b3,
      draw_unique_bits (coins (db m)) rnd = Found b1 b2 b3 ->
      ~ In (b1, b2, b3) (map triple (coins (db m)))) /\
  incl (map triple (coins (db m0))) (map triple (coins (db m))).
Proof.
  intros Hidle Huniq Hreach.
  destruct (reachable_invariant m0 m Hidle Huniq Hreach) as (_ & Hu & Hk).
  split; [exact Hu|]. split; [|exact Hk].
  intros rnd b1 b2 b3. apply draw_unique_bits_fresh.
Qed.

Lemma C1_witness :
  let m1 := snd (generate_POST (Sample.generate_request "alice-token" (500 # 1))
                   Sample.env Sample.machine) in
  let m2 := snd (buy_POST (Sample.buy_request "bob-token" 1) Sample.env m1) in
  map triple (coins (db m2)) = [(1, 2, 3); (4, 5, 6); (7, 8, 9)] /\
  triples_unique (coins (db m2)).
Proof.
  intros m1 m2.
  assert (Hreach : reachable Sample.machine m2).
  { refine (reach_step _ m1 m2 (reach_step _ _ m1 (reach_init _) _) _).
    - exact (step_generate _ _ _).
    - exact (step_buy _ _ _). }
  split; [vm_compute; reflexivity|].
  refine (proj1 (C1_triples_stay_unique Sample.machine m2 eq_refl _ Hreach)).
  unfold triples_unique. apply (bool_decide_unpack _). vm_compute. exact I.
Defined.

(** C2. When [generate] succeeds for the requester [u] (the user the
    token verifies to) and the value [v], then [v] is positive and the
    store gains exactly one coin row, appended with a fresh id, owner [u],
    value [v] and components in 1..10, and exactly one transaction row for
    that coin with buyer [u], no seller and amount [v]; nothing else in
    the tables changes. *)
Theorem C2_generate_adds_one_coin_one_transaction
    (m : Machine) (env : Env) (token : string) (u : TokenData) (v : Q) :
  verifyToken env token = Some u ->
  unit_interval (random env) ->
  succeeded (generate env token v m) ->
  (0 < v)%Q /\
  exists c t,
    coins (db (snd (generate env token v m))) = coins (db m) ++ [c] /\
    transactions (db (snd (generate env token v m))) =
      transactions (db m) ++ [t] /\
    clients (db (snd (generate env token v m))) = clients (db m) /\
    client_id c = Some (userId u) /\ value c = v /\
    (1 <= bit1 c <= 10 /\ 1 <= bit2 c <= 10 /\ 1 <= bit3 c <= 10) /\
    Forall (fun c' => coin_id c' < coin_id c) (coins (db m)) /\
    tx_coin_id t = coin_id c /\
    buyer_id t = userId u /\ seller_id t = None /\ amount t = v.
Proof.
  intros Hver Hrnd Hok. unfold generate in *.
  destruct (generate_POST_cases
              (mkRequest (Bearer token) (Some (mkGenerateData (JsNumber v))))
              env m)
    as [(token' & ud & q & b1 & b2 & b3
         & Hauth & Hver' & Hjson & Hpos & _ & Hdraw & Hr)
       |(Hfail & _)]; [|contradiction].
  simpl in Hauth, Hjson, Hr.
  injection Hauth as <-. injection Hjson as <-.
  rewrite Hver in Hver'. injection Hver' as <-.
  rewrite Hr. simpl. split; [exact Hpos|].
  eexists. eexists.
  split; [reflexivity|]. split; [reflexivity|]. split; [reflexivity|]. simpl.
  split; [reflexivity|]. split; [reflexivity|].
  split; [exact (draw_unique_bits_range _ _ _ _ _ Hrnd Hdraw)|].
  split; [|repeat split].
  apply Forall_forall. intros c' Hc'.
  pose proof (next_rowid_above (map coin_id (coins (db m)))) as Hall.
  rewrite Forall_forall in Hall. apply Hall.
  apply list_elem_of_In, in_map, list_elem_of_In, Hc'.
Qed.

Lemma sample_unit_interval : unit_interval (random Sample.env).
Proof.
  intros n. cbn [random Sample.env].
  pose proof (Nat.mod_upper_bound n 10 ltac:(lia)) as Hlt.
  destruct (n mod 10)%nat as [|[|[|[|[|[|[|[|[|[|k]]]]]]]]]];
    [repeat split; vm_compute; reflexivity..|lia].
Qed.

Lemma C2_witness :
  succeeded (generate Sample.env "alice-token" (500 # 1) Sample.machine) /\
  exists c t,
    coins (db (snd (generate Sample.env "alice-token" (500 # 1) Sample.machine)))
      = coins Sample.tables ++ [c] /\
    transactions
      (db (snd (generate Sample.env "alice-token" (500 # 1) Sample.machine)))
      = transactions Sample.tables ++ [t] /\
    client_id c = Some 1 /\ buyer_id t = 1 /\ seller_id t = None.
Proof.
  assert (Hok : succeeded
                  (generate Sample.env "alice-token" (500 # 1) Sample.machine)).
  { eexists. split; vm_compute; reflexivity. }
  split; [exact Hok|].
  destruct (C2_generate_adds_one_coin_one_transaction
              Sample.machine Sample.env "alice-token" Sample.alice (500 # 1)
              eq_refl sample_unit_interval Hok)
    as (_ & c & t & Hc & Ht & _ & Hown & _ & _ & _ & _ & Hb & Hs & _).
  exists c, t. repeat split; assumption.
Defined.

(** C3. A successful [buy] of the coin [coinId] by the requester [u2]
    found that coin with no owner, rewrites the owner of the rows with
    that id to [u2] leaving every other field and every other row as it
    was, and appends exactly one transaction with buyer [u2], no seller,
    the coin's value as amount and the current time as date. *)
Theorem C3_buy_sets_owner_and_appends_transaction
    (m : Machine) (env : Env) (token : string) (u2 : TokenData) (coinId : Z) :
  verifyToken env token = Some u2 ->
  succeeded (buy env token coinId m) ->
  exists c t,
    find (fun c => coin_id c =? coinId) (coins (db m)) = Some c /\
    client_id c = None /\
    coins (db (snd (buy env token coinId m))) =
      map (fun c' => if coin_id c' =? coinId
                     then mkCoin (coin_id c') (bit1 c') (bit2 c') (bit3 c')
                            (value c') (Some (userId u2))
                     else c') (coins (db m)) /\
    transactions (db (snd (buy env token coinId m))) =
      transactions (db m) ++ [t] /\
    clients (db (snd (buy env token coinId m))) = clients (db m) /\
    tx_coin_id t = coinId /\ buyer_id t = userId u2 /\ seller_id t = None /\
    amount t = value c /\ transaction_date t = now env.
Proof.
  intros Hver Hok. unfold buy in *.
  destruct (buy_POST_cases
              (mkRequest (Bearer token) (Some (mkBuyData (Some coinId)))) env m)
    as [(token' & ud & cid & coin
         & Hauth & Hver' & Hjson & _ & _ & Hfind & Hfree & Hr)
       |(Hfail & _)]; [|contradiction].
  simpl in Hauth, Hjson, Hr.
  injection Hauth as <-. injection Hjson as <-.
  rewrite Hver in Hver'. injection Hver' as <-.
  rewrite Hr. simpl. exists coin. eexists.
  split; [exact Hfind|]. split; [exact Hfree|].
  repeat split.
Qed.

Lemma C3_witness :
  succeeded (buy Sample.env "bob-token" 1 Sample.machine) /\
  exists c t,
    find (fun c => coin_id c =? 1) (coins Sample.tables) = Some c /\
    coins (db (snd (buy Sample.env "bob-token" 1 Sample.machine))) =
      [mkCoin 1 1 2 3 (50 # 1) (Some 2); mkCoin 2 4 5 6 (75 # 1) (Some 1)] /\
    transactions (db (snd (buy Sample.env "bob-token" 1 Sample.machine))) =
      transactions Sample.tables ++ [t] /\
    buyer_id t = 2 /\ seller_id t = None /\ amount t = value c.
Proof.
  assert (Hok : succeeded (buy Sample.env "bob-token" 1 Sample.machine)).
  { eexists. split; vm_compute; reflexivity. }
  split; [exact Hok|].
  destruct (C3_buy_sets_owner_and_appends_transaction
              Sample.machine Sample.env "bob-token" Sample.bob 1 eq_refl Hok)
    as (c & t & Hfind & _ & Hc & Ht & _ & _ & Hb & Hs & Ha & _).
  exists c, t.
  split; [exact Hfind|]. split; [exact Hc|]. split; [exact Ht|].
  split; [exact Hb|]. split; [exact Hs | exact Ha].
Defined.

(** C4 as stated fails for the coin id 0: no coin has that id, yet the
    handler's [!data.coin_id] guard answers "Coin ID is required" (400)
    before the store is consulted, not "Coin not found" (404). *)
Lemma C4_counterexample :
  open_tx Sample.machine = None /\
  verifyToken Sample.env "bob-token" = Some Sample.bob /\
  storage_fault Sample.env SelectCoin = false /\
  find (fun c => coin_id c =? 0) (coins (db Sample.machine)) = None /\
  ~ NotFoundError (buy Sample.env "bob-token" 0 Sample.machine) /\
  fst (buy Sample.env "bob-token" 0 Sample.machine) =
    Val (reply 400 false "Coin ID is required").
Proof.
  split; [reflexivity|]. split; [reflexivity|]. split; [reflexivity|].
  split; [reflexivity|]. split.
  - unfold NotFoundError. vm_compute. discriminate.
  - vm_compute. reflexivity.
Qed.

(** The lookup of a coin after its rows were given an owner. *)
Lemma find_set_owner (buyerId coinId : Z) (cs : list Coin) :
  find (fun c => coin_id c =? coinId)
    (map (fun c => if coin_id c =? coinId then set_owner buyerId c else c) cs)
  = set_owner buyerId <$> find (fun c => coin_id c =? coinId) cs.
Proof.
  induction cs as [|c cs IH]; simpl; [reflexivity|].
  destruct (coin_id c =? coinId) eqn:E; simpl; rewrite E; [reflexivity|].
  exact IH.
Qed.

(** The two failing runs of [buy] behind the coin-id guard. *)
Lemma buy_coin_not_found
    (m : Machine) (env : Env) (token : string) (u : TokenData) (coinId : Z) :
  open_tx m = None ->
  verifyToken env token = Some u ->
  storage_fault env SelectCoin = false ->
  coinId <> 0 ->
  find (fun c => coin_id c =? coinId) (coins (db m)) = None ->
  buy env token coinId m = (Val (reply 404 false "Coin not found"), m).
Proof.
  intros Hidle Hver Hsel Hnz Hfind.
  unfold buy, buy_POST. simpl. rewrite Hver.
  unfold_monad. unfold coin_id_missing. simpl.
  apply Z.eqb_neq in Hnz. rewrite Hnz, Hidle. simpl.
  rewrite Hsel. simpl. rewrite Hfind. simpl.
  f_equal. apply machine_eta, Hidle.
Qed.

Lemma buy_coin_already_owned
    (m : Machine) (env : Env) (token : string) (u : TokenData) (coinId : Z)
    (c : Coin) (owner : Z) :
  open_tx m = None ->
  verifyToken env token = Some u ->
  storage_fault env SelectCoin = false ->
  coinId <> 0 ->
  find (fun c => coin_id c =? coinId) (coins (db m)) = Some c ->
  client_id c = Some owner ->
  buy env token coinId m =
  (Val (reply 400 false "Coin already has an owner"), m).
Proof.
  intros Hidle Hver Hsel Hnz Hfind Hown.
  unfold buy, buy_POST. simpl. rewrite Hver.
  unfold_monad. unfold coin_id_missing. simpl.
  apply Z.eqb_neq in Hnz. rewrite Hnz, Hidle. simpl.
  rewrite Hsel. simpl. rewrite Hfind. simpl. rewrite Hown. simpl.
  f_equal. apply machine_eta, Hidle.
Qed.

(** C4 (amended). For a non-zero coin id, on a connection with no
    transaction already open and when reading the coin raises no storage
    error, [buy] by an authenticated requester fails with NotFoundError
    ("Coin not found", 404) when no coin has that id and with
    AlreadyOwnedError ("Coin already has an owner", 400) when the coin
    found has an owner, and in both cases it leaves the machine state as
    it was: no transaction row is appended and no coin row is modified.
    In particular a second [buy] of a coin that was just bought, by any
    authenticated requester, fails with AlreadyOwnedError and changes
    nothing. *)
Theorem C4_buy_failures_leave_store_unchanged
    (m : Machine) (env : Env) (token : string) (u : TokenData) (coinId : Z) :
  open_tx m = None ->
  verifyToken env token = Some u ->
  storage_fault env SelectCoin = false ->
  coinId <> 0 ->
  (find (fun c => coin_id c =? coinId) (coins (db m)) = None ->
   NotFoundError (buy env token coinId m) /\
   snd (buy env token coinId m) = m /\
   coins (db (snd (buy env token coinId m))) = coins (db m) /\
   transactions (db (snd (buy env token coinId m))) = transactions (db m)) /\
  (forall c owner,
      find (fun c => coin_id c =? coinId) (coins (db m)) = Some c ->
      client_id c = Some owner ->
      AlreadyOwnedError (buy env token coinId m) /\
      snd (buy env token coinId m) = m /\
      coins (db (snd (buy env token coinId m))) = coins (db m) /\
      transactions (db (snd (buy env token coinId m))) = transactions (db m)) /\
  (succeeded (buy env token coinId m) ->
   forall env2 token2 u2,
     verifyToken env2 token2 = Some u2 ->
     storage_fault env2 SelectCoin = false ->
     AlreadyOwnedError (buy env2 token2 coinId (snd (buy env token coinId m))) /\
     snd (buy env2 token2 coinId (snd (buy env token coinId m))) =
       snd (buy env token coinId m)).
Proof.
  intros Hidle Hver Hsel Hnz. split; [|split].
  - intros Hfind. unfold NotFoundError.
    rewrite (buy_coin_not_found m env token u coinId Hidle Hver Hsel Hnz Hfind).
    repeat split.
  - intros c owner Hfind Hown. unfold AlreadyOwnedError.
    rewrite (buy_coin_already_owned m env token u coinId c owner
               Hidle Hver Hsel Hnz Hfind Hown).
    repeat split.
  - intros Hok env2 token2 u2 Hver2 Hsel2. unfold buy in Hok |- *.
    destruct (buy_POST_cases
                (mkRequest (Bearer token) (Some (mkBuyData (Some coinId)))) env m)
      as [(token' & ud & cid & coin
           & Hauth & Hver' & Hjson & _ & _ & Hfind & _ & Hr)
         |(Hfail & _)]; [|contradiction].
    simpl in Hauth, Hjson, Hr. injection Hjson as <-.
    rewrite Hr. cbn [snd]. unfold AlreadyOwnedError.
    fold (buy env2 token2 coinId).
    rewrite (buy_coin_already_owned _ env2 token2 u2 coinId
               (set_owner (userId ud) coin) (userId ud));
      [split; reflexivity|reflexivity|exact Hver2|exact Hsel2|exact Hnz| |reflexivity].
    cbn [db coins]. rewrite find_set_owner, Hfind. reflexivity.
Qed.

Lemma C4_witness :
  NotFoundError (buy Sample.env "bob-token" 7 Sample.machine) /\
  snd (buy Sample.env "bob-token" 7 Sample.machine) = Sample.machine /\
  AlreadyOwnedError (buy Sample.env "bob-token" 2 Sample.machine) /\
  snd (buy Sample.env "bob-token" 2 Sample.machine) = Sample.machine /\
  succeeded (buy Sample.env "bob-token" 1 Sample.machine) /\
  AlreadyOwnedError
    (buy Sample.env "alice-token" 1
       (snd (buy Sample.env "bob-token" 1 Sample.machine))) /\
  snd (buy Sample.env "alice-token" 1
         (snd (buy Sample.env "bob-token" 1 Sample.machine))) =
    snd (buy Sample.env "bob-token" 1 Sample.machine).
Proof.
  destruct (C4_buy_failures_leave_store_unchanged
              Sample.machine Sample.env "bob-token" Sample.bob 7
              eq_refl eq_refl eq_refl ltac:(discriminate)) as (H7 & _ & _).
  destruct (C4_buy_failures_leave_store_unchanged
              Sample.machine Sample.env "bob-token" Sample.bob 2
              eq_refl eq_refl eq_refl ltac:(discriminate)) as (_ & H2 & _).
  destruct (C4_buy_failures_leave_store_unchanged
              Sample.machine Sample.env "bob-token" Sample.bob 1
              eq_refl eq_refl eq_refl ltac:(discriminate)) as (_ & _ & H1).
  assert (Hok : succeeded (buy Sample.env "bob-token" 1 Sample.machine)).
  { eexists. split; vm_compute; reflexivity. }
  destruct (H7 eq_refl) as (Ha & Hb & _).
  destruct (H2 (mkCoin 2 4 5 6 (75 # 1) (Some 1)) 1 eq_refl eq_refl)
    as (Hc & Hd & _).
  destruct (H1 Hok Sample.env "alice-token" Sample.alice eq_refl eq_refl)
    as (He & Hf).
  repeat split; assumption.
Defined.

(** ** Full occupancy *)

Lemma combination_space_length : length combination_space = MAX_COMBINATIONS.
Proof. reflexivity. Qed.

Lemma in_combination_space (b1 b2 b3 : Z) :
  1 <= b1 <= 10 -> 1 <= b2 <= 10 -> 1 <= b3 <= 10 ->
  In (b1, b2, b3) combination_space.
Proof.
  intros H1 H2 H3. unfold combination_space.
  repeat (apply in_prod); apply list_elem_of_In, elem_of_seqZ; lia.
Qed.

(** A thousand coins with distinct triples in range use up the space. *)
Lemma full_occupancy (cs : list Coin) :
  length cs = MAX_COMBINATIONS -> triples_unique cs -> bits_in_range cs ->
  forall b1 b2 b3,
    1 <= b1 <= 10 -> 1 <= b2 <= 10 -> 1 <= b3 <= 10 ->
    In (b1, b2, b3) (map triple cs).
Proof.
  intros Hlen Huniq Hrange b1 b2 b3 H1 H2 H3.
  apply (@NoDup_length_incl _ (map triple cs) combination_space).
  - apply NoDup_ListNoDup, Huniq.
  - rewrite length_map, Hlen, combination_space_length. lia.
  - intros t Ht. apply in_map_iff in Ht as (c & <- & Hc).
    unfold bits_in_range in Hrange. rewrite Forall_forall in Hrange.
    apply list_elem_of_In in Hc. destruct (Hrange c Hc) as (? & ? & ?).
    apply in_combination_space; assumption.
  - apply in_combination_space; assumption.
Qed.

Lemma draw_unique_bits_exhausted (cs : list Coin) (rnd : nat -> spec_float) :
  length cs = MAX_COMBINATIONS -> triples_unique cs -> bits_in_range cs ->
  unit_interval rnd ->
  draw_unique_bits cs rnd =
  GaveUp "Could not find unique bit combination after many attempts".
Proof.
  intros Hlen Huniq Hrange Hrnd. unfold draw_unique_bits.
  apply draw_loop_exhausted; [|unfold MAX_ATTEMPTS; lia..].
  intros k. apply triple_in_existing.
  apply full_occupancy; try assumption; apply random_bit_range; apply Hrnd.
Qed.

(** C5. With 1000 coins in the store (pairwise distinct triples with
    components in 1..10, so that every triple of the space is taken), a
    valid [generate] request is answered with the exhaustion error: none
    of the 10000 draws is unused, the handler rolls back, and the machine
    state is as before, so neither a coin row nor a transaction row is
    created. *)
Theorem C5_generate_exhausted
    (m : Machine) (env : Env) (token : string) (u : TokenData) (v : Q) :
  open_tx m = None ->
  length (coins (db m)) = MAX_COMBINATIONS ->
  triples_unique (coins (db m)) ->
  bits_in_range (coins (db m)) ->
  unit_interval (random env) ->
  verifyToken env token = Some u ->
  (0 < v)%Q ->
  storage_fault env SelectBits = false ->
  ExhaustionError (generate env token v m) /\
  snd (generate env token v m) = m /\
  coins (db (snd (generate env token v m))) = coins (db m) /\
  transactions (db (snd (generate env token v m))) = transactions (db m).
Proof.
  intros Hidle Hlen Huniq Hrange Hrnd Hver Hpos Hsel.
  assert (Hrun : generate env token v m =
    (Val (reply 500 false
       "Error generating coin: Could not find unique bit combination after many attempts"),
     m)).
  { unfold generate, generate_POST. simpl. rewrite Hver.
    unfold_monad. simpl.
    assert (Hvalid : value_invalid (mkGenerateData (JsNumber v)) = false).
    { unfold value_invalid. simpl.
      destruct (Qeq_bool v 0) eqn:Heq.
      - apply Qeq_bool_iff in Heq. rewrite Heq in Hpos.
        exfalso. exact (Qlt_irrefl 0 Hpos).
      - destruct (Qle_bool v 0) eqn:Hle; [|reflexivity].
        apply Qle_bool_iff in Hle. exfalso.
        exact (Qlt_irrefl 0 (Qlt_le_trans _ _ _ Hpos Hle)). }
    rewrite Hvalid, Hidle. simpl. rewrite Hsel. simpl.
    rewrite (draw_unique_bits_exhausted _ _ Hlen Huniq Hrange Hrnd). simpl.
    f_equal. apply machine_eta, Hidle. }
  rewrite Hrun. simpl. repeat split.
Qed.

Lemma C5_witness :
  length (coins (db Sample.full_machine)) = 1000%nat /\
  ExhaustionError (generate Sample.env "alice-token" (500 # 1) Sample.full_machine) /\
  snd (generate Sample.env "alice-token" (500 # 1) Sample.full_machine)
  = Sample.full_machine.
Proof.
  split; [vm_compute; reflexivity|].
  destruct (C5_generate_exhausted Sample.full_machine Sample.env
              "alice-token" Sample.alice (500 # 1)) as (He & Hs & _).
  - reflexivity.
  - vm_compute; reflexivity.
  - unfold triples_unique. apply (bool_decide_unpack _). vm_compute. exact I.
  - unfold bits_in_range. apply (bool_decide_unpack _). vm_compute. exact I.
  - exact sample_unit_interval.
  - reflexivity.
  - reflexivity.
  - reflexivity.
  - split; assumption.
Defined.

(** C8. When [buy] or [generate] succeeds, the machine it leaves has an
    empty transactions cache and an empty coins cache: both maps are
    cleared as a whole. *)
Theorem C8_success_clears_both_caches
    (m : Machine) (env : Env)
    (breq : Request BuyData) (greq : Request GenerateData) :
  (succeeded (buy_POST breq env m) ->
   transactionCache (snd (buy_POST breq env m)) = ∅ /\
   coinCache (snd (buy_POST breq env m)) = ∅) /\
  (succeeded (generate_POST greq env m) ->
   transactionCache (snd (generate_POST greq env m)) = ∅ /\
   coinCache (snd (generate_POST greq env m)) = ∅).
Proof.
  split; intros Hok.
  - destruct (buy_POST_cases breq env m)
      as [(? & ? & ? & ? & _ & _ & _ & _ & _ & _ & _ & Hr)|(Hfail & _)];
      [|contradiction].
    rewrite Hr. split; reflexivity.
  - destruct (generate_POST_cases greq env m)
      as [(? & ? & ? & ? & ? & ? & _ & _ & _ & _ & _ & _ & Hr)|(Hfail & _)];
      [|contradiction].
    simpl in Hr. rewrite Hr. split; reflexivity.
Qed.

Lemma C8_witness :
  coinCache Sample.machine !! "coins-1-10" = Some Sample.page /\
  transactionCache
    (snd (buy_POST (Sample.buy_request "bob-token" 1) Sample.env Sample.machine))
  = ∅ /\
  coinCache
    (snd (generate_POST (Sample.generate_request "alice-token" (500 # 1))
            Sample.env Sample.machine))
  = ∅.
Proof.
  destruct (C8_success_clears_both_caches Sample.machine Sample.env
              (Sample.buy_request "bob-token" 1)
              (Sample.generate_request "alice-token" (500 # 1))) as [Hb Hg].
  split; [vm_compute; reflexivity|]. split.
  - apply Hb. eexists. split; vm_compute; reflexivity.
  - apply Hg. eexists. split; vm_compute; reflexivity.
Defined.

(** C10. When [buy] or [generate] does not succeed, whatever the reason
    (no or bad token, unreadable body, missing coin id, invalid value,
    coin not found, coin already owned, no unused triple, a storage call
    that throws), both cache maps are exactly as before, so every cached
    page is served as before until it expires. *)
Theorem C10_failure_keeps_both_caches
    (m : Machine) (env : Env)
    (breq : Request BuyData) (greq : Request GenerateData) :
  (~ succeeded (buy_POST breq env m) ->
   transactionCache (snd (buy_POST breq env m)) = transactionCache m /\
   coinCache (snd (buy_POST breq env m)) = coinCache m /\
   forall key clock,
     cache_hit (transactionCache (snd (buy_POST breq env m))) key clock
       = cache_hit (transactionCache m) key clock /\
     cache_hit (coinCache (snd (buy_POST breq env m))) key clock
       = cache_hit (coinCache m) key clock) /\
  (~ succeeded (generate_POST greq env m) ->
   transactionCache (snd (generate_POST greq env m)) = transactionCache m /\
   coinCache (snd (generate_POST greq env m)) = coinCache m /\
   forall key clock,
     cache_hit (transactionCache (snd (generate_POST greq env m))) key clock
       = cache_hit (transactionCache m) key clock /\
     cache_hit (coinCache (snd (generate_POST greq env m))) key clock
       = cache_hit (coinCache m) key clock).
Proof.
  split; intros Hfail.
  - destruct (buy_POST_cases breq env m)
      as [(? & ? & ? & ? & _ & _ & _ & _ & _ & _ & _ & Hr)|(_ & Ht & Hc & _)].
    + exfalso. apply Hfail. rewrite Hr. eexists. split; reflexivity.
    + rewrite Ht, Hc. auto.
  - destruct (generate_POST_cases greq env m)
      as [(? & ? & ? & ? & ? & ? & _ & _ & _ & _ & _ & _ & Hr)
         |(_ & Ht & Hc & _)].
    + exfalso. apply Hfail. simpl in Hr. rewrite Hr. eexists. split; reflexivity.
    + rewrite Ht, Hc. auto.
Qed.

Lemma C10_witness :
  ~ succeeded (buy Sample.env "bob-token" 2 Sample.machine) /\
  coinCache (snd (buy Sample.env "bob-token" 2 Sample.machine))
    !! "coins-1-10" = Some Sample.page /\
  transactionCache
    (snd (generate Sample.env "alice-token" (0 # 1) Sample.machine))
    !! "transactions-1-10-{}" = Some Sample.page.
Proof.
  assert (Hb : ~ succeeded (buy Sample.env "bob-token" 2 Sample.machine)).
  { intros (resp & E & Hs). vm_compute in E. injection E as <-. discriminate. }
  assert (Hg : ~ succeeded
                 (generate Sample.env "alice-token" (0 # 1) Sample.machine)).
  { intros (resp & E & Hs). vm_compute in E. injection E as <-. discriminate. }
  destruct (C10_failure_keeps_both_caches Sample.machine Sample.env
              (Sample.buy_request "bob-token" 2)
              (Sample.generate_request "alice-token" (0 # 1))) as [Kb Kg].
  destruct (Kb Hb) as (_ & Hc & _). destruct (Kg Hg) as (Ht & _).
  split; [exact Hb|]. split.
  - unfold buy. unfold Sample.buy_request in Hc. rewrite Hc.
    vm_compute. reflexivity.
  - unfold generate. unfold Sample.generate_request in Ht. rewrite Ht.
    vm_compute. reflexivity.
Defined.

(** ** Independence of the requester *)

Lemma same_coins_refl (u1 u2 : Z) (cs : list Coin) :
  Forall2 (same_coin_but_owner u1 u2) cs cs.
Proof.
  induction cs; constructor; [|assumption].
  unfold same_coin_but_owner. auto.
Qed.

Lemma same_transactions_refl (u1 u2 : Z) (ts : list Transaction) :
  Forall2 (same_transaction_but_buyer u1 u2) ts ts.
Proof.
  induction ts; constructor; [|assumption].
  unfold same_transaction_but_buyer. repeat split; auto.
Qed.

Lemma differ_only_in_requester_refl (u1 u2 : Z) (m : Machine) :
  differ_only_in_requester u1 u2 m m.
Proof.
  unfold differ_only_in_requester.
  repeat split; auto using same_coins_refl, same_transactions_refl.
Qed.

Lemma set_owner_same_coins (u1 u2 coinId : Z) (cs : list Coin) :
  Forall2 (same_coin_but_owner u1 u2)
    (map (fun c => if coin_id c =? coinId then set_owner u1 c else c) cs)
    (map (fun c => if coin_id c =? coinId then set_owner u2 c else c) cs).
Proof.
  induction cs as [|c cs IH]; simpl; constructor; [|assumption].
  unfold same_coin_but_owner.
  destruct (coin_id c =? coinId); simpl; auto 6.
Qed.

(** Closes a branch in which both requesters get the same answer and
    leave the same state. *)
Ltac same_outcome :=
  simpl; split; [reflexivity|];
  split; [apply differ_only_in_requester_refl | intros _; reflexivity].

(** C9. For a fixed machine state, environment and request body, two
    authenticated requesters get the same response from [buy] (the same
    success, validation, not-found, already-owned or server-error
    answer): the buyer's identity enters no test. The states left behind
    agree except that the first records [u1] where the second records
    [u2] as owner of the coin and as buyer of the appended transaction,
    and they are equal when the purchase does not succeed. *)
Theorem C9_buy_outcome_independent_of_requester
    (m : Machine) (env : Env) (body : option BuyData)
    (token1 token2 : string) (u1 u2 : TokenData) :
  verifyToken env token1 = Some u1 ->
  verifyToken env token2 = Some u2 ->
  fst (buy_POST (mkRequest (Bearer token1) body) env m) =
  fst (buy_POST (mkRequest (Bearer token2) body) env m) /\
  differ_only_in_requester (userId u1) (userId u2)
    (snd (buy_POST (mkRequest (Bearer token1) body) env m))
    (snd (buy_POST (mkRequest (Bearer token2) body) env m)) /\
  (~ succeeded (buy_POST (mkRequest (Bearer token1) body) env m) ->
   snd (buy_POST (mkRequest (Bearer token1) body) env m) =
   snd (buy_POST (mkRequest (Bearer token2) body) env m)).
Proof.
  intros Hv1 Hv2. unfold buy_POST. simpl. rewrite Hv1, Hv2.
  unfold_monad. unfold coin_id_missing. simpl.
  destruct body as [[[cid|]]|]; simpl.
  - destruct (cid =? 0); [same_outcome|].
    destruct (open_tx m) eqn:Hopen; simpl; [rewrite Hopen; same_outcome|].
    destruct (storage_fault env SelectCoin); simpl; [same_outcome|].
    destruct (find _ _) as [coin|]; simpl; [|same_outcome].
    destruct (client_id coin); simpl; [same_outcome|].
    destruct (storage_fault env UpdateCoinOwner); simpl; [same_outcome|].
    destruct (storage_fault env InsertTransaction); simpl; [same_outcome|].
    destruct (storage_fault env Commit); simpl; [same_outcome|].
    split; [reflexivity|]. split.
    + unfold differ_only_in_requester. simpl.
      split; [apply set_owner_same_coins|].
      split; [|repeat split].
      apply Forall2_app; [apply same_transactions_refl|].
      constructor; [|constructor].
      unfold same_transaction_but_buyer. simpl. repeat split; auto.
    + intros Hfail. exfalso. apply Hfail. eexists. split; reflexivity.
  - same_outcome.
  - destruct (open_tx m) eqn:Hopen; simpl; same_outcome.
Qed.

Lemma C9_witness :
  fst (buy_POST (Sample.buy_request "alice-token" 1) Sample.env Sample.machine)
  = fst (buy_POST (Sample.buy_request "bob-token" 1) Sample.env Sample.machine)
  /\
  differ_only_in_requester 1 2
    (snd (buy_POST (Sample.buy_request "alice-token" 1) Sample.env Sample.machine))
    (snd (buy_POST (Sample.buy_request "bob-token" 1) Sample.env Sample.machine)).
Proof.
  destruct (C9_buy_outcome_independent_of_requester Sample.machine Sample.env
              (Some (mkBuyData (Some 1))) "alice-token" "bob-token"
              Sample.alice Sample.bob eq_refl eq_refl) as (Hr & Hs & _).
  split; [exact Hr | exact Hs].
Defined.

(** ** The history query and the timeline loop *)

Lemma insert_by_date_perm (r : HistoryRow) (l : list HistoryRow) :
  insert_by_date r l ≡ₚ r :: l.
Proof.
  induction l as [|x l IH]; simpl; [reflexivity|].
  destruct (String.leb _ _); [reflexivity|].
  rewrite IH. apply Permutation_swap.
Qed.

Lemma order_by_date_perm (l : list HistoryRow) : order_by_date l ≡ₚ l.
Proof.
  induction l as [|x l IH]; simpl; [reflexivity|].
  rewrite insert_by_date_perm, IH. reflexivity.
Qed.

Lemma insert_by_date_hd (r x : HistoryRow) (l : list HistoryRow) :
  date_le x r -> HdRel date_le x l -> HdRel date_le x (insert_by_date r l).
Proof.
  intros Hxr Hhd. destruct l as [|y l]; simpl; [constructor; exact Hxr|].
  destruct (String.leb _ _); constructor; [exact Hxr|].
  inversion Hhd; assumption.
Qed.

Lemma insert_by_date_sorted (r : HistoryRow) (l : list HistoryRow) :
  Sorted date_le l -> Sorted date_le (insert_by_date r l).
Proof.
  induction 1 as [|x l Hs IH Hhd]; simpl; [repeat constructor|].
  destruct (String.leb (row_transaction_date r) (row_transaction_date x)) eqn:Hle.
  - constructor; [constructor; assumption|]. constructor. exact Hle.
  - constructor; [exact IH|]. apply insert_by_date_hd; [|exact Hhd].
    unfold date_le.
    destruct (String.leb_total (row_transaction_date r) (row_transaction_date x));
      congruence.
Qed.

Lemma order_by_date_sorted (l : list HistoryRow) :
  Sorted date_le (order_by_date l).
Proof.
  induction l; simpl; [constructor|]. apply insert_by_date_sorted. assumption.
Qed.

(** Every row of the history query is the join of a transaction of that
    coin. *)
Lemma history_rows_source (t : Tables) (coinId : Z) (r : HistoryRow) :
  r ∈ history_rows t coinId ->
  exists tx, tx ∈ transactions t /\ tx_coin_id tx = coinId /\
             join_clients (clients t) tx = Some r.
Proof.
  unfold history_rows. rewrite order_by_date_perm.
  intros Hin. apply list_elem_of_omap in Hin as (tx & Htx & Hjoin).
  apply list_elem_of_filter in Htx as [Hcoin Htx].
  exists tx. auto.
Qed.

(** No transaction of the coin is lost by the query, provided its buyer
    is a registered client. *)
Lemma history_rows_complete (t : Tables) (coinId : Z) (tx : Transaction) :
  tx ∈ transactions t -> tx_coin_id tx = coinId ->
  is_Some (clients t !! buyer_id tx) ->
  exists i row, history_rows t coinId !! i = Some row /\
                join_clients (clients t) tx = Some row.
Proof.
  intros Htx Hcoin [bn Hbn].
  destruct (join_clients (clients t) tx) as [row|] eqn:Hjoin.
  - assert (Hin : row ∈ history_rows t coinId).
    { unfold history_rows. rewrite order_by_date_perm.
      apply list_elem_of_omap. exists tx. split; [|exact Hjoin].
      apply list_elem_of_filter. auto. }
    apply list_elem_of_lookup in Hin as [i Hi]. eauto.
  - unfold join_clients in Hjoin. rewrite Hbn in Hjoin. discriminate.
Qed.

Lemma join_clients_fields (cl : gmap Z string) (tx : Transaction) (r : HistoryRow) :
  join_clients cl tx = Some r ->
  row_buyer_id r = buyer_id tx /\
  cl !! buyer_id tx = Some (row_buyer_name r) /\
  row_transaction_date r = transaction_date tx /\
  row_amount r = amount tx /\
  (seller_id tx = None -> row_seller_id r = None /\ row_seller_name r = None) /\
  (forall s n, seller_id tx = Some s -> cl !! s = Some n ->
               row_seller_id r = Some s /\ row_seller_name r = Some n).
Proof.
  unfold join_clients. destruct (cl !! buyer_id tx) as [bn|] eqn:Hb; [|discriminate].
  intros [= <-]. simpl.
  split; [reflexivity|]. split; [reflexivity|].
  split; [reflexivity|]. split; [reflexivity|]. split.
  - intros ->. split; reflexivity.
  - intros s n -> ->. split; reflexivity.
Qed.

Lemma timeline_later (rows : list HistoryRow) (st : Timeline) :
  isFirstTransaction st = false ->
  ownershipHistory (fold_left timeline_step rows st) =
  ownershipHistory st ++ map transfer_record rows.
Proof.
  revert st. induction rows as [|r rows IH]; intros st Hst; simpl.
  - rewrite app_nil_r. reflexivity.
  - rewrite IH by reflexivity. unfold timeline_step at 1. simpl.
    rewrite Hst, <- app_assoc. reflexivity.
Qed.

(** The loop emits a "generated" record for the first row and a
    "transfer" record for each later row. *)
Lemma timeline_history (rows : list HistoryRow) :
  ownershipHistory (timeline rows) =
  match rows with
  | [] => []
  | r :: rows' => generated_record r :: map transfer_record rows'
  end.
Proof.
  unfold timeline. destruct rows as [|r rows']; simpl; [reflexivity|].
  rewrite timeline_later by reflexivity. reflexivity.
Qed.

Lemma project_found (t : Tables) (coinId : Z) (history : list OwnershipRecord) :
  project t (Some coinId) = HistoryOk coinId history ->
  exists coin,
    find (fun c => coin_id c =? coinId) (coins t) = Some coin /\
    history = ownershipHistory (timeline (history_rows t coinId)) ++
              [current_record t coin (timeline (history_rows t coinId))].
Proof.
  unfold project. destruct (find _ _) as [coin|]; [|discriminate].
  intros [= <-]. exists coin. auto.
Qed.

(** The timeline of a coin whose only transaction was bought by its
    present owner, a registered client. *)
Lemma project_single_transaction
    (t : Tables) (coinId u : Z) (coin : Coin) (mint : Transaction)
    (name : string) :
  find (fun c => coin_id c =? coinId) (coins t) = Some coin ->
  client_id coin = Some u ->
  filter (fun tx => tx_coin_id tx = coinId) (transactions t) = [mint] ->
  buyer_id mint = u ->
  clients t !! u = Some name ->
  project t (Some coinId) =
  HistoryOk coinId
    [mkOwnershipRecord (transaction_date mint) (Some u) (Some name)
       "generated" (Some (amount mint)) None (Some "Original Issuer");
     mkOwnershipRecord "Current" (Some u)
       (if u =? 0 then None else Some name)
       "current" None (Some u) (Some name)].
Proof.
  intros Hfind Hown Hlog Hbuyer Hclient.
  unfold project. rewrite Hfind.
  unfold history_rows. rewrite Hlog. simpl.
  unfold join_clients. rewrite Hbuyer, Hclient. simpl.
  unfold current_record, generated_record. simpl. rewrite Hown.
  unfold client_name, truthy_id. simpl.
  destruct (u =? 0); simpl; rewrite ?Hclient; reflexivity.
Qed.

(** C6. For a coin that was generated and never transferred (its owner is
    the requester [u] who minted it, and the mint is the only transaction
    of the coin), [u] being a registered client, [project] returns exactly
    two records: a "generated" record and then a "current" record, both
    with owner [u]. *)
Theorem C6_generated_coin_history
    (t : Tables) (coinId u : Z) (coin : Coin) (mint : Transaction)
    (name : string) :
  find (fun c => coin_id c =? coinId) (coins t) = Some coin ->
  client_id coin = Some u ->
  filter (fun tx => tx_coin_id tx = coinId) (transactions t) = [mint] ->
  buyer_id mint = u ->
  clients t !! u = Some name ->
  exists g c,
    project t (Some coinId) = HistoryOk coinId [g; c] /\
    type g = "generated" /\ type c = "current" /\
    owner_id g = Some u /\ owner_id c = Some u /\
    owner_name g = Some name /\ (u <> 0 -> owner_name c = Some name) /\
    previous_owner_id c = Some u.
Proof.
  intros Hfind Hown Hlog Hbuyer Hclient.
  eexists. eexists.
  split; [exact (project_single_transaction t coinId u coin mint name
                   Hfind Hown Hlog Hbuyer Hclient)|].
  simpl. repeat split.
  intros Hnz. apply Z.eqb_neq in Hnz. rewrite Hnz. reflexivity.
Qed.

Lemma C6_witness :
  succeeded (generate Sample.env "alice-token" (500 # 1) Sample.machine) /\
  exists g c,
    project (db (snd (generate Sample.env "alice-token" (500 # 1) Sample.machine)))
      (Some 3) = HistoryOk 3 [g; c] /\
    type g = "generated" /\ type c = "current" /\
    owner_id g = Some 1 /\ owner_id c = Some 1.
Proof.
  split; [eexists; split; vm_compute; reflexivity|].
  destruct (C6_generated_coin_history
              (db (snd (generate Sample.env "alice-token" (500 # 1) Sample.machine)))
              3 1 (mkCoin 3 7 8 9 (500 # 1) (Some 1))
              (mkTransaction 2 3 1 None "2025-03-01T12:00:00.000Z" (500 # 1))
              "Alice")
    as (g & c & Hp & Hg & Hc & Hog & Hoc & _).
  - vm_compute. reflexivity.
  - reflexivity.
  - vm_compute. reflexivity.
  - reflexivity.
  - vm_compute. reflexivity.
  - exists g, c. repeat split; assumption.
Defined.

(** C7. The history query lists, by ascending date, the transactions
    of the coin (each one whose buyer is a registered client has a row).
    In the timeline that [project] returns, every row after the first is
    emitted, at the same position, as a "transfer" record whose owner is
    the buyer of that transaction and whose previous owner is its seller;
    when the transaction has no seller the previous owner is null and the
    history modal shows "Original Issuer". *)
Theorem C7_later_transactions_are_transfers
    (t : Tables) (coinId : Z) (history : list OwnershipRecord) :
  project t (Some coinId) = HistoryOk coinId history ->
  Sorted date_le (history_rows t coinId) /\
  (forall tx,
      tx ∈ transactions t -> tx_coin_id tx = coinId ->
      is_Some (clients t !! buyer_id tx) ->
      exists i row, history_rows t coinId !! i = Some row /\
                    join_clients (clients t) tx = Some row) /\
  forall i row,
    (0 < i)%nat -> history_rows t coinId !! i = Some row ->
    exists tx record,
      tx ∈ transactions t /\ tx_coin_id tx = coinId /\
      row_transaction_date row = transaction_date tx /\
      history !! i = Some record /\
      type record = "transfer" /\
      date record = transaction_date tx /\
      rec_amount record = Some (amount tx) /\
      owner_id record = Some (buyer_id tx) /\
      owner_name record = clients t !! buyer_id tx /\
      (seller_id tx = None ->
       previous_owner_id record = None /\
       previous_owner_label record = "Original Issuer") /\
      (forall s n,
          seller_id tx = Some s -> clients t !! s = Some n ->
          previous_owner_id record = Some s /\
          previous_owner_name record = Some n /\
          previous_owner_label record =
            if String.eqb n EmptyString then "Original Issuer" else n).
Proof.
  intros Hproj. split; [apply order_by_date_sorted|].
  split; [apply history_rows_complete|].
  intros i row Hi Hrow.
  apply project_found in Hproj as (coin & _ & ->).
  assert (Hsrc : row ∈ history_rows t coinId)
    by (apply list_elem_of_lookup; eauto).
  apply history_rows_source in Hsrc as (tx & Htx & Hcoin & Hjoin).
  apply join_clients_fields in Hjoin
    as (Hbuyer & Hbname & Hdate & Hamount & Hnull & Hseller).
  exists tx, (transfer_record row).
  split; [exact Htx|]. split; [exact Hcoin|]. split; [exact Hdate|].
  split.
  { rewrite timeline_history.
    destruct (history_rows t coinId) as [|r0 rows] eqn:Hrows;
      [discriminate|].
    destruct i as [|i]; [lia|]. simpl in Hrow |- *.
    rewrite lookup_app_l.
    - apply list_lookup_fmap_Some_2, Hrow.
    - rewrite length_map. apply lookup_lt_Some in Hrow. exact Hrow. }
  unfold previous_owner_label. simpl.
  split; [reflexivity|]. split; [exact Hdate|].
  split; [rewrite Hamount; reflexivity|].
  split; [rewrite Hbuyer; reflexivity|].
  split; [rewrite Hbname; reflexivity|]. split.
  - intros Hnone. destruct (Hnull Hnone) as [-> ->]. split; reflexivity.
  - intros s n Hs Hn. destruct (Hseller s n Hs Hn) as [-> ->].
    repeat split.
Qed.

Lemma C7_witness :
  project Sample.resold (Some 2) = HistoryOk 2 Sample.resold_history /\
  history_rows Sample.resold 2 !! 2%nat = Some Sample.last_sale /\
  exists tx record,
    tx ∈ transactions Sample.resold /\
    row_transaction_date Sample.last_sale = transaction_date tx /\
    Sample.resold_history !! 2%nat = Some record /\
    type record = "transfer" /\
    owner_id record = Some (buyer_id tx) /\
    (seller_id tx = None -> previous_owner_label record = "Original Issuer").
Proof.
  assert (Hp : project Sample.resold (Some 2) = HistoryOk 2 Sample.resold_history)
    by (vm_compute; reflexivity).
  assert (Hr : history_rows Sample.resold 2 !! 2%nat = Some Sample.last_sale)
    by (vm_compute; reflexivity).
  split; [exact Hp|]. split; [exact Hr|].
  destruct (C7_later_transactions_are_transfers Sample.resold 2
              Sample.resold_history Hp) as (_ & _ & H).
  destruct (H 2%nat Sample.last_sale ltac:(lia) Hr)
    as (tx & record & Htx & _ & Hd & Hl & Hty & _ & _ & Ho & _ & Hn & _).
  exists tx, record.
  split; [exact Htx|]. split; [exact Hd|]. split; [exact Hl|].
  split; [exact Hty|]. split; [exact Ho|].
  intros Hs. apply (Hn Hs).
Defined.

(** ** Generation followed by projection *)

Lemma find_coin_snoc (cs : list Coin) (c : Coin) :
  coin_id c = next_rowid (map coin_id cs) ->
  find (fun c' => coin_id c' =? coin_id c) (cs ++ [c]) = Some c.
Proof.
  intros Hid.
  pose proof (next_rowid_above (map coin_id cs)) as Habove.
  rewrite <- Hid in Habove. clear Hid.
  induction cs as [|x cs IH]; simpl.
  - rewrite Z.eqb_refl. reflexivity.
  - inversion Habove as [|? ? Hx Hrest]; subst.
    destruct (coin_id x =? coin_id c) eqn:E; [lia|]. apply IH, Hrest.
Qed.

Lemma filter_transactions_snoc (t : Tables) (coinId : Z) (mint : Transaction) :
  transactions_refer_to_coins t ->
  coinId = next_rowid (map coin_id (coins t)) ->
  tx_coin_id mint = coinId ->
  filter (fun tx => tx_coin_id tx = coinId) (transactions t ++ [mint]) = [mint].
Proof.
  intros Hrefs Hid Hmint.
  pose proof (next_rowid_above (map coin_id (coins t))) as Habove.
  rewrite <- Hid in Habove. rewrite Forall_forall in Habove.
  rewrite filter_app.
  assert (Hnone : filter (fun tx => tx_coin_id tx = coinId) (transactions t) = []).
  { unfold transactions_refer_to_coins in Hrefs.
    induction Hrefs as [|tx txs Htx _ IH]; [reflexivity|].
    rewrite filter_cons. destruct (decide (tx_coin_id tx = coinId)) as [E|E].
    - apply list_elem_of_In, Habove in Htx. lia.
    - exact IH. }
  rewrite Hnone. simpl. rewrite filter_cons.
  destruct (decide (tx_coin_id mint = coinId)); [reflexivity | contradiction].
Qed.

(** A coin just generated by a registered client, in a store whose
    transactions all refer to coin rows, has the two-record history. *)
Lemma generate_then_project
    (m : Machine) (env : Env) (token : string) (u : TokenData) (v : Q)
    (name : string) :
  verifyToken env token = Some u ->
  clients (db m) !! userId u = Some name ->
  transactions_refer_to_coins (db m) ->
  succeeded (generate env token v m) ->
  exists coinId g c,
    resp_coin_id <$> response_of (generate env token v m) = Some (Some coinId) /\
    project (db (snd (generate env token v m))) (Some coinId) =
      HistoryOk coinId [g; c] /\
    type g = "generated" /\ type c = "current" /\
    owner_id g = Some (userId u) /\ owner_id c = Some (userId u).
Proof.
  intros Hver Hclient Hrefs Hok. unfold generate in *.
  destruct (generate_POST_cases
              (mkRequest (Bearer token) (Some (mkGenerateData (JsNumber v))))
              env m)
    as [(token' & ud & q & b1 & b2 & b3
         & Hauth & Hver' & Hjson & _ & _ & _ & Hr)
       |(Hfail & _)]; [|contradiction].
  simpl in Hauth, Hjson, Hr.
  injection Hauth as <-. injection Hjson as <-.
  rewrite Hver in Hver'. injection Hver' as <-.
  rewrite Hr. unfold response_of.
  set (coinId := next_rowid (map coin_id (coins (db m)))).
  set (coin := mkCoin coinId b1 b2 b3 v (Some (userId u))).
  set (mint := mkTransaction (next_rowid (map id (transactions (db m))))
                 coinId (userId u) None (now env) v).
  pose proof (project_single_transaction
                (mkTables (coins (db m) ++ [coin])
                   (transactions (db m) ++ [mint]) (clients (db m)))
                coinId (userId u) coin mint name) as Hp.
  exists coinId. eexists. eexists.
  split; [reflexivity|]. split.
  - apply Hp.
    + apply (find_coin_snoc (coins (db m)) coin). reflexivity.
    + reflexivity.
    + apply (filter_transactions_snoc (db m)); auto.
    + reflexivity.
    + exact Hclient.
  - repeat split.
Qed.

(** With no transaction open, the answer of [buy] to a given request
    depends on the store only through the row of the targeted coin. *)
Lemma buy_response_depends_on_coin_only
    (req : Request BuyData) (env : Env) (m1 m2 : Machine) (coinId : Z) :
  json req = Some (mkBuyData (Some coinId)) ->
  open_tx m1 = None -> open_tx m2 = None ->
  find (fun c => coin_id c =? coinId) (coins (db m1)) =
  find (fun c => coin_id c =? coinId) (coins (db m2)) ->
  fst (buy_POST req env m1) = fst (buy_POST req env m2).
Proof.
  intros Hjson Hidle1 Hidle2 Hfind. unfold buy_POST.
  destruct (authorization req) as [|token]; [reflexivity|].
  destruct (verifyToken env token) as [ud|]; [|reflexivity].
  unfold_monad. rewrite Hjson. unfold coin_id_missing. simpl.
  destruct (coinId =? 0); [reflexivity|].
  rewrite Hidle1, Hidle2. simpl.
  destruct (storage_fault env SelectCoin); simpl; [reflexivity|].
  rewrite Hfind.
  destruct (find _ (coins (db m2))) as [coin|]; simpl; [|reflexivity].
  destruct (client_id coin); simpl; [reflexivity|].
  destruct (storage_fault env UpdateCoinOwner); simpl; [reflexivity|].
  destruct (storage_fault env InsertTransaction); simpl; [reflexivity|].
  destruct (storage_fault env Commit); reflexivity.
Qed.

(** Nothing about the requester can make the purchase of an unowned coin
    fail: there is no funds check and no ownership restriction. *)
Lemma buy_unowned_succeeds
    (m : Machine) (env : Env) (token : string) (u : TokenData)
    (coinId : Z) (c : Coin) :
  open_tx m = None ->
  verifyToken env token = Some u ->
  (forall s, storage_fault env s = false) ->
  coinId <> 0 ->
  find (fun c => coin_id c =? coinId) (coins (db m)) = Some c ->
  client_id c = None ->
  succeeded (buy env token coinId m).
Proof.
  intros Hidle Hver Hfault Hnz Hfind Hfree.
  unfold buy, buy_POST, succeeded. simpl. rewrite Hver.
  unfold_monad. unfold coin_id_missing. simpl.
  apply Z.eqb_neq in Hnz. rewrite Hnz, Hidle. simpl.
  rewrite ?Hfault. simpl. rewrite Hfind. simpl. rewrite Hfree. simpl.
  rewrite ?Hfault. simpl.
  eexists. split; reflexivity.
Qed.
